(** * Plyr overlay plugin (src/js/plugins/overlay.js)

    A shallow embedding of the [Overlay] class: the canvas that Plyr lays over
    the video, its resize and letterbox geometry, the render loop driven by
    [requestVideoFrameCallback] or [requestAnimationFrame], and the one-slot
    frame data handoff to a user supplied renderer.

    JavaScript numbers are IEEE 754 binary64.  The embedding is written once
    over an interface of the arithmetic the plugin uses ([JSNumber]) and is
    instantiated twice: at Rocq's primitive binary64 floats, which is what the
    browser evaluates, and at exact rationals, which is the arithmetic the
    geometry is designed in.  The two are related by the rounding error of
    the binary64 operations, derived from the Standard Library's
    specification of the primitive floats. *)

From Stdlib Require Import ZArith QArith Qround Qpower Bool List String Lia Lqa.
From Stdlib Require Import Floats Uint63.
Import ListNotations.

Set Implicit Arguments.
Local Open Scope string_scope.
Local Open Scope list_scope.

(** ** Numbers *)

(** The operations on numbers that overlay.js uses: integer literals,
    [-], [*], [/], [>], the truthiness test behind [||] and [!], and
    [Math.round]. *)
Class JSNumber (num : Type) : Type := {
  num_of_Z : Z -> num;
  num_sub : num -> num -> num;
  num_mul : num -> num -> num;
  num_div : num -> num -> num;
  num_gt : num -> num -> bool;
  to_boolean : num -> bool;
  math_round : num -> num
}.

Declare Scope js_scope.
Delimit Scope js_scope with js.
Notation "a - b" := (num_sub a b) : js_scope.
Notation "a * b" := (num_mul a b) : js_scope.
Notation "a / b" := (num_div a b) : js_scope.
Notation "a >? b" := (num_gt a b) (at level 70, no associativity) : js_scope.

(** [a || b] on numbers: [a] when it is truthy, otherwise [b]. *)
Definition num_or {num} `{JSNumber num} (a b : num) : num :=
  if to_boolean a then a else b.
Notation "a '|||' b" := (num_or a b) (at level 50, left associativity) : js_scope.

(** *** Binary64, as the browser computes *)

Definition float_of_Z (z : Z) : float :=
  match z with
  | Zneg p => PrimFloat.opp (PrimFloat.of_uint63 (Uint63.of_Z (Zpos p)))
  | _ => PrimFloat.of_uint63 (Uint63.of_Z z)
  end.

(** ToBoolean of a Number: false for +0, -0 and NaN. *)
Definition float_to_boolean (a : float) : bool :=
  negb (PrimFloat.eqb a 0%float || PrimFloat.is_nan a).

Definition two52 : float := 0x1p52%float.

(** [Math.floor] for a binary64 value.  Adding and subtracting 2^52 rounds to
    the nearest integer; the result is lowered by one when it overshoots.
    Values of magnitude 2^52 or more, infinities and NaN are returned as they
    are (they are integral already, or have no floor). *)
Definition float_floor (a : float) : float :=
  if PrimFloat.ltb (PrimFloat.abs a) two52 then
    let n := if PrimFloat.leb 0%float a
             then PrimFloat.sub (PrimFloat.add a two52) two52
             else PrimFloat.add (PrimFloat.sub a two52) two52 in
    if PrimFloat.ltb a n then PrimFloat.sub n 1%float else n
  else a.

(** [Math.round]: the nearest integer, a tie going to the larger one.
    The sign of a zero result is not tracked. *)
Definition float_round (a : float) : float :=
  if PrimFloat.ltb (PrimFloat.abs a) two52 then
    let f := float_floor a in
    if PrimFloat.leb 0.5%float (PrimFloat.sub a f) then PrimFloat.add f 1%float else f
  else a.

#[export] Instance binary64 : JSNumber float := {
  num_of_Z := float_of_Z;
  num_sub := PrimFloat.sub;
  num_mul := PrimFloat.mul;
  num_div := PrimFloat.div;
  num_gt := fun a b => PrimFloat.ltb b a;
  to_boolean := float_to_boolean;
  math_round := float_round
}.

(** *** Exact rationals, the arithmetic without rounding

    [Qdiv] by zero is zero where JavaScript gives an infinity or NaN, so this
    instance stands for the source only where no divisor is zero: every
    theorem about it assumes a wrapper of nonzero height (the video's
    dimensions are nonzero once the defaults are in).  It does not round
    either: what holds of it holds of the browser's result up to the rounding
    error bounded in [fitVideoRect_binary64]. *)
#[export] Instance exact : JSNumber Q := {
  num_of_Z := inject_Z;
  num_sub := Qminus;
  num_mul := Qmult;
  num_div := Qdiv;
  num_gt := fun a b => negb (Qle_bool a b);
  to_boolean := fun a => negb (Qeq_bool a 0);
  math_round := fun a => inject_Z (Qfloor (a + (1 # 2)))
}.

(** *** The value of a binary64 number

    What the browser computes is compared with exact arithmetic through the
    rational number a binary64 value stands for.  [Prim2SF] is the Standard
    Library's reading of a primitive float as sign, significand and exponent,
    and its axioms state that the primitive operations round as IEEE 754
    prescribes ([SpecFloat]). *)

Section Binary64Values.

Local Open Scope Q_scope.

Definition pow2 (e : Z) : Q := 2 ^ e.








(** The round and sticky bits [r] and [s] of [SpecFloat]'s shift record tell
    where the discarded fraction [f] lies in [[0, 1)]. *)
Definition location_ok (r s : bool) (f : Q) : Prop :=
  match r, s with
  | false, false => f == 0
  | false, true => 0 < f /\ f < 1 # 2
  | true, false => f == 1 # 2
  | true, true => (1 # 2) < f /\ f < 1
  end.

(** A shift record stands for the nonnegative rational [q]: its integer is
    the integer part of [q], its bits locate the rest. *)
Definition represents (mrs : shr_record) (q : Q) : Prop :=
  (0 <= shr_m mrs)%Z
  /\ location_ok (shr_r mrs) (shr_s mrs) (q - inject_Z (shr_m mrs)).

End Binary64Values.

(** ** Data model *)

(** What can be thrown while a method of the plugin runs: a property read on
    [null], or whatever the user's renderer throws. *)
Inductive Exception : Type :=
| TypeError (what : string)
| CallbackError (fn : nat).

(** How a method call ends: it returns a value, or it throws. *)
Inductive Completion (A : Type) : Type :=
| Normal (a : A)
| Throw (e : Exception).
Arguments Throw {A} e.

Section Plugin.

Variable num : Type.
Context {N : JSNumber num}.
Local Open Scope js_scope.

(** JavaScript values handed to the plugin from outside: frame identifiers,
    detections, and the renderer.  Objects and functions are references. *)
Inductive JSValue : Type :=
| VUndefined
| VNull
| VBoolean (b : bool)
| VNumber (n : num)
| VString (s : string)
| VObject (ref : nat)
| VFunction (ref : nat).

(** Modelled from the spec: [is.function] of ../utils/is is not part of the
    sources at hand; the renderer is accepted when it is a function value. *)
Definition is_function (v : JSValue) : bool :=
  match v with VFunction _ => true | _ => false end.

(** The result of [getBoundingClientRect], of which only the size is read. *)
Record DOMRect : Type := { dom_width : num; dom_height : num }.

(** Modelled from the spec: [is.element] of ../utils/is is not part of the
    sources at hand.  [player.elements.wrapper] is either missing ([None]) or
    a DOM element, given by its bounding box. *)
Definition is_element (wrapper : option DOMRect) : bool :=
  match wrapper with Some _ => true | None => false end.

(** The rectangle [{ x, y, w, h }] returned by [getVideoRect]. *)
Record VideoRect : Type := { rect_x : num; rect_y : num; rect_w : num; rect_h : num }.

(** The canvas element: its resolution and whether it sits in the DOM.  The
    element is taken to keep the number assigned to [width] and [height]. *)
Record Canvas : Type := {
  canvas_width : num;
  canvas_height : num;
  parentNode : bool
}.

(** The 2D context, of which the plugin sets the transform. *)
Record Context2D : Type := {
  m_a : num; m_b : num; m_c : num; m_d : num; m_e : num; m_f : num
}.

(** [player.media]: intrinsic size (zero until metadata is known) and which of
    the video frame callback methods the element provides. *)
Record Media : Type := {
  videoWidth : num;
  videoHeight : num;
  has_requestVideoFrameCallback : bool;
  has_cancelVideoFrameCallback : bool
}.

(** Calls that leave the plugin, in the order they are made. *)
Inductive Event : Type :=
| EWarn (msg : string)
| ELog (msg : string)
| EAppendChild
| ERemoveChild
| EAddEventListener (target name : string)
| ERemoveEventListener (target name : string)
| ESetTransform (a b c d e f : num)
| EClearRect (x y w h : num)
| ERenderer (fn : nat) (frameData : JSValue) (videoRect : VideoRect) (frameId : JSValue)
| ETriggerEvent (name : string)
| ERequestAnimationFrame (handle : nat)
| ECancelAnimationFrame (handle : nat)
| ERequestVideoFrameCallback (handle : nat)
| ECancelVideoFrameCallback (handle : nat).

(** The fields of an [Overlay] instance. *)
Record Overlay : Type := {
  canvas : option Canvas;
  ctx : option Context2D;
  enabled : bool;
  ready : bool;
  frameData : JSValue;
  activeFrameId : JSValue;
  renderer : JSValue;
  _rafId : option nat;
  _rvfcId : option nat;
  _running : bool
}.

(** What the plugin reads from the player and the window, the callbacks the
    browser holds for it, and the calls made so far. *)
Record Host : Type := {
  isVideo : bool;
  wrapper : option DOMRect;
  media : option Media;
  overlay_enabled : bool;
  useVideoFrameCallback : bool;
  devicePixelRatio : num;
  context2d_available : bool;
  fn_throws : nat -> bool;
  rafPending : list nat;
  rvfcPending : list nat;
  nextHandle : nat;
  trace : list Event
}.

Record World : Type := { this : Overlay; host : Host }.

(** *** Field updates *)

Definition set_canvas (v : option Canvas) (o : Overlay) : Overlay :=
  {| canvas := v; ctx := ctx o; enabled := enabled o; ready := ready o;
     frameData := frameData o; activeFrameId := activeFrameId o;
     renderer := renderer o; _rafId := _rafId o; _rvfcId := _rvfcId o;
     _running := _running o |}.

Definition set_ctx (v : option Context2D) (o : Overlay) : Overlay :=
  {| canvas := canvas o; ctx := v; enabled := enabled o; ready := ready o;
     frameData := frameData o; activeFrameId := activeFrameId o;
     renderer := renderer o; _rafId := _rafId o; _rvfcId := _rvfcId o;
     _running := _running o |}.

Definition set_enabled (v : bool) (o : Overlay) : Overlay :=
  {| canvas := canvas o; ctx := ctx o; enabled := v; ready := ready o;
     frameData := frameData o; activeFrameId := activeFrameId o;
     renderer := renderer o; _rafId := _rafId o; _rvfcId := _rvfcId o;
     _running := _running o |}.

Definition set_ready (v : bool) (o : Overlay) : Overlay :=
  {| canvas := canvas o; ctx := ctx o; enabled := enabled o; ready := v;
     frameData := frameData o; activeFrameId := activeFrameId o;
     renderer := renderer o; _rafId := _rafId o; _rvfcId := _rvfcId o;
     _running := _running o |}.

Definition set_frameData (v : JSValue) (o : Overlay) : Overlay :=
  {| canvas := canvas o; ctx := ctx o; enabled := enabled o; ready := ready o;
     frameData := v; activeFrameId := activeFrameId o;
     renderer := renderer o; _rafId := _rafId o; _rvfcId := _rvfcId o;
     _running := _running o |}.

Definition set_activeFrameId (v : JSValue) (o : Overlay) : Overlay :=
  {| canvas := canvas o; ctx := ctx o; enabled := enabled o; ready := ready o;
     frameData := frameData o; activeFrameId := v;
     renderer := renderer o; _rafId := _rafId o; _rvfcId := _rvfcId o;
     _running := _running o |}.

Definition set_renderer (v : JSValue) (o : Overlay) : Overlay :=
  {| canvas := canvas o; ctx := ctx o; enabled := enabled o; ready := ready o;
     frameData := frameData o; activeFrameId := activeFrameId o;
     renderer := v; _rafId := _rafId o; _rvfcId := _rvfcId o;
     _running := _running o |}.

Definition set_rafId (v : option nat) (o : Overlay) : Overlay :=
  {| canvas := canvas o; ctx := ctx o; enabled := enabled o; ready := ready o;
     frameData := frameData o; activeFrameId := activeFrameId o;
     renderer := renderer o; _rafId := v; _rvfcId := _rvfcId o;
     _running := _running o |}.

Definition set_rvfcId (v : option nat) (o : Overlay) : Overlay :=
  {| canvas := canvas o; ctx := ctx o; enabled := enabled o; ready := ready o;
     frameData := frameData o; activeFrameId := activeFrameId o;
     renderer := renderer o; _rafId := _rafId o; _rvfcId := v;
     _running := _running o |}.

Definition set_running (v : bool) (o : Overlay) : Overlay :=
  {| canvas := canvas o; ctx := ctx o; enabled := enabled o; ready := ready o;
     frameData := frameData o; activeFrameId := activeFrameId o;
     renderer := renderer o; _rafId := _rafId o; _rvfcId := _rvfcId o;
     _running := v |}.

(** The browser side: what is pending, the next handle, the calls made. *)
Definition set_browser (raf rvfc : list nat) (next : nat) (tr : list Event)
    (p : Host) : Host :=
  {| isVideo := isVideo p; wrapper := wrapper p; media := media p;
     overlay_enabled := overlay_enabled p;
     useVideoFrameCallback := useVideoFrameCallback p;
     devicePixelRatio := devicePixelRatio p;
     context2d_available := context2d_available p;
     fn_throws := fn_throws p;
     rafPending := raf; rvfcPending := rvfc; nextHandle := next; trace := tr |}.

(** ** Methods run in a state monad with exceptions *)

Definition M (A : Type) : Type := World -> Completion A * World.

Definition ret {A} (a : A) : M A := fun w => (Normal a, w).

Definition bind {A B} (m : M A) (k : A -> M B) : M B :=
  fun w => match m w with
           | (Normal a, w') => k a w'
           | (Throw e, w') => (Throw e, w')
           end.

Definition throw {A} (e : Exception) : M A := fun w => (Throw e, w).

Notation "x <- m ;; k" := (bind m (fun x => k))
  (at level 61, m at next level, right associativity).
Notation "m ;; k" := (bind m (fun _ => k))
  (at level 61, right associativity).

(** Read a field of [this], or of the player and window. *)
Definition get {A} (f : Overlay -> A) : M A := fun w => (Normal (f (this w)), w).
Definition ask {A} (f : Host -> A) : M A := fun w => (Normal (f (host w)), w).

(** Assign to fields of [this]. *)
Definition assign (upd : Overlay -> Overlay) : M unit :=
  fun w => (Normal tt, {| this := upd (this w); host := host w |}).

(** Record a call that leaves the plugin. *)
Definition emit (e : Event) : M unit :=
  fun w => (Normal tt,
            {| this := this w;
               host := set_browser (rafPending (host w)) (rvfcPending (host w))
                         (nextHandle (host w)) (trace (host w) ++ [e]) (host w) |}).

Definition remove_handle (h : nat) (l : list nat) : list nat :=
  filter (fun k => negb (Nat.eqb k h)) l.

(** [requestAnimationFrame(cb)]: the browser keeps the registration and
    returns its handle. *)
Definition requestAnimationFrame : M nat :=
  fun w =>
    let p := host w in
    let h := nextHandle p in
    (Normal h,
     {| this := this w;
        host := set_browser (rafPending p ++ [h]) (rvfcPending p) (S h)
                  (trace p ++ [ERequestAnimationFrame h]) p |}).

(** [cancelAnimationFrame(h)]: the registration, if still held, is dropped. *)
Definition cancelAnimationFrame (h : nat) : M unit :=
  fun w =>
    let p := host w in
    (Normal tt,
     {| this := this w;
        host := set_browser (remove_handle h (rafPending p)) (rvfcPending p)
                  (nextHandle p) (trace p ++ [ECancelAnimationFrame h]) p |}).

(** [video.requestVideoFrameCallback(cb)]. *)
Definition requestVideoFrameCallback : M nat :=
  fun w =>
    let p := host w in
    let h := nextHandle p in
    (Normal h,
     {| this := this w;
        host := set_browser (rafPending p) (rvfcPending p ++ [h]) (S h)
                  (trace p ++ [ERequestVideoFrameCallback h]) p |}).

(** [video.cancelVideoFrameCallback(h)]. *)
Definition cancelVideoFrameCallback (h : nat) : M unit :=
  fun w =>
    let p := host w in
    (Normal tt,
     {| this := this w;
        host := set_browser (rafPending p) (remove_handle h (rvfcPending p))
                  (nextHandle p) (trace p ++ [ECancelVideoFrameCallback h]) p |}).

(** Calling the user's renderer: the call is recorded; the function either
    returns or throws.  It is taken not to call back into the plugin. *)
Definition call_renderer (fn : nat) (data : JSValue) (r : VideoRect)
    (frameId : JSValue) : M unit :=
  emit (ERenderer fn data r frameId) ;;
  throws <- ask fn_throws ;;
  if throws fn then throw (CallbackError fn) else ret tt.

(** ** The methods of [Overlay] *)

Definition num0 : num := num_of_Z 0.

(** [constructor(player)], before the conditional call of [setup]. *)
Definition new_overlay : Overlay :=
  {| canvas := None; ctx := None; enabled := false; ready := false;
     frameData := VNull; activeFrameId := VNull; renderer := VNull;
     _rafId := None; _rvfcId := None; _running := false |}.

(** [get supported()]. *)
Definition supported : M bool := ask isVideo.

(** [_bindListeners()]. *)
Definition _bindListeners : M unit :=
  emit (EAddEventListener "window" "resize") ;;
  emit (EAddEventListener "container" "enterfullscreen") ;;
  emit (EAddEventListener "container" "exitfullscreen").

(** [_unbindListeners()]. *)
Definition _unbindListeners : M unit :=
  emit (ERemoveEventListener "window" "resize").

(** Lines 168 to 195 of [getVideoRect], once the wrapper's size [cw] by [ch]
    and the media element have been read. *)
Definition fitVideoRect (cw ch videoWidth videoHeight : num) : VideoRect :=
  let vw := videoWidth ||| num_of_Z 1920 in
  let vh := videoHeight ||| num_of_Z 1080 in
  if negb (to_boolean vw) || negb (to_boolean vh) then
    {| rect_x := num0; rect_y := num0; rect_w := cw; rect_h := ch |}
  else
    let videoRatio := vw / vh in
    let containerRatio := cw / ch in
    if containerRatio >? videoRatio then
      let drawH := ch in
      let drawW := ch * videoRatio in
      let offsetX := (cw - drawW) / num_of_Z 2 in
      let offsetY := num0 in
      {| rect_x := offsetX; rect_y := offsetY; rect_w := drawW; rect_h := drawH |}
    else
      let drawW := cw in
      let drawH := cw / videoRatio in
      let offsetX := num0 in
      let offsetY := (ch - drawH) / num_of_Z 2 in
      {| rect_x := offsetX; rect_y := offsetY; rect_w := drawW; rect_h := drawH |}.

(** [getVideoRect()].  Reading [videoWidth] of a missing media element
    throws. *)
Definition getVideoRect : M VideoRect :=
  wr <- ask wrapper ;;
  match wr with
  | None => ret {| rect_x := num0; rect_y := num0; rect_w := num0; rect_h := num0 |}
  | Some wrapperRect =>
      let cw := dom_width wrapperRect in
      let ch := dom_height wrapperRect in
      m <- ask media ;;
      match m with
      | None => throw (TypeError "videoWidth of null")
      | Some video => ret (fitVideoRect cw ch (videoWidth video) (videoHeight video))
      end
  end.

(** [setFrameData(frameId, detections)]. *)
Definition setFrameData (frameId detections : JSValue) : M unit :=
  assign (set_activeFrameId frameId) ;;
  assign (set_frameData detections).

(** [setRenderer(callback)]. *)
Definition setRenderer (callback : JSValue) : M unit :=
  if negb (is_function callback)
     && negb (match callback with VNull => true | _ => false end)
  then emit (EWarn "Overlay renderer must be a function or null")
  else assign (set_renderer callback).

(** [render()]. *)
Definition render : M unit :=
  cx <- get ctx ;;
  cv <- get canvas ;;
  match cx, cv with
  | Some _, Some _ =>
      wr <- ask wrapper ;;
      match wr with
      | None => ret tt
      | Some wrapperRect =>
          let cssWidth := dom_width wrapperRect in
          let cssHeight := dom_height wrapperRect in
          emit (EClearRect num0 num0 cssWidth cssHeight) ;;
          r <- get renderer ;;
          match r with
          | VFunction fn =>
              videoRect <- getVideoRect ;;
              data <- get frameData ;;
              frameId <- get activeFrameId ;;
              call_renderer fn data videoRect frameId
          | _ => ret tt
          end ;;
          assign (set_frameData VNull) ;;
          assign (set_activeFrameId VNull)
      end
  | _, _ => ret tt
  end.

(** [resize()].  The canvas takes the wrapper's size in device pixels, the
    context is scaled back to CSS pixels, and the overlay is rendered again.
    [this.ctx.setTransform] on a missing context throws. *)
Definition resize : M unit :=
  cv <- get canvas ;;
  match cv with
  | None => ret tt
  | Some c =>
      wr <- ask wrapper ;;
      match wr with
      | None => ret tt
      | Some rect =>
          d <- ask devicePixelRatio ;;
          let dpr := d ||| num_of_Z 1 in
          assign (set_canvas
                    (Some {| canvas_width := math_round (dom_width rect * dpr);
                             canvas_height := math_round (dom_height rect * dpr);
                             parentNode := parentNode c |})) ;;
          cx <- get ctx ;;
          match cx with
          | None => throw (TypeError "setTransform of null")
          | Some _ =>
              assign (set_ctx (Some {| m_a := dpr; m_b := num0; m_c := num0;
                                       m_d := dpr; m_e := num0; m_f := num0 |})) ;;
              emit (ESetTransform dpr num0 num0 dpr num0 num0)
          end ;;
          render
      end
  end.

(** The closure [callback] of [_rvfcLoop], as the browser runs it. *)
Definition rvfcCallback : M unit :=
  running <- get _running ;;
  if negb running then ret tt
  else
    emit (ETriggerEvent "overlayframe") ;;
    render ;;
    h <- requestVideoFrameCallback ;;
    assign (set_rvfcId (Some h)).

(** [_rvfcLoop(video)]. *)
Definition _rvfcLoop : M unit :=
  running <- get _running ;;
  if negb running then ret tt
  else
    h <- requestVideoFrameCallback ;;
    assign (set_rvfcId (Some h)).

(** The closure [loop] of [_rafLoop], as the browser runs it. *)
Definition rafCallback : M unit :=
  running <- get _running ;;
  if negb running then ret tt
  else
    render ;;
    h <- requestAnimationFrame ;;
    assign (set_rafId (Some h)).

(** [_rafLoop()]. *)
Definition _rafLoop : M unit :=
  running <- get _running ;;
  if negb running then ret tt
  else
    h <- requestAnimationFrame ;;
    assign (set_rafId (Some h)).

(** [_startLoop()].  [&&] reads [video.requestVideoFrameCallback] only when
    the option is on; on a missing media element that read throws. *)
Definition _startLoop : M unit :=
  running <- get _running ;;
  if running then ret tt
  else
    assign (set_running true) ;;
    useVfc <- ask useVideoFrameCallback ;;
    m <- ask media ;;
    if useVfc then
      match m with
      | None => throw (TypeError "requestVideoFrameCallback of null")
      | Some video =>
          if has_requestVideoFrameCallback video then _rvfcLoop else _rafLoop
      end
    else _rafLoop.

(** [_stopLoop()]. *)
Definition _stopLoop : M unit :=
  assign (set_running false) ;;
  rafId <- get _rafId ;;
  match rafId with
  | Some h => cancelAnimationFrame h ;; assign (set_rafId None)
  | None => ret tt
  end ;;
  rvfcId <- get _rvfcId ;;
  m <- ask media ;;
  match rvfcId, m with
  | Some h, Some video =>
      if has_cancelVideoFrameCallback video
      then cancelVideoFrameCallback h ;; assign (set_rvfcId None)
      else ret tt
  | _, _ => ret tt
  end.

(** [clear()]. *)
Definition clear : M unit :=
  assign (set_frameData VNull) ;;
  assign (set_activeFrameId VNull) ;;
  cx <- get ctx ;;
  cv <- get canvas ;;
  match cx, cv with
  | Some _, Some _ =>
      wr <- ask wrapper ;;
      match wr with
      | Some rect => emit (EClearRect num0 num0 (dom_width rect) (dom_height rect))
      | None => ret tt
      end
  | _, _ => ret tt
  end.

(** [destroy()]. *)
Definition destroy : M unit :=
  _stopLoop ;;
  _unbindListeners ;;
  cv <- get canvas ;;
  match cv with
  | Some c => if parentNode c then emit ERemoveChild else ret tt
  | None => ret tt
  end ;;
  assign (set_canvas None) ;;
  assign (set_ctx None) ;;
  assign (set_frameData VNull) ;;
  assign (set_activeFrameId VNull) ;;
  assign (set_renderer VNull) ;;
  assign (set_enabled false) ;;
  assign (set_ready false) ;;
  emit (ELog "Overlay destroyed").

(** [setup()].  A new canvas is 300 by 150 with the identity transform. *)
Definition setup : M unit :=
  sup <- supported ;;
  if negb sup then emit (EWarn "Overlay is only supported for video")
  else
    rdy <- get ready ;;
    if rdy then ret tt
    else
      wr <- ask wrapper ;;
      if negb (is_element wr)
      then emit (EWarn "Overlay setup failed: no video wrapper found")
      else
        assign (set_canvas
                  (Some {| canvas_width := num_of_Z 300;
                           canvas_height := num_of_Z 150;
                           parentNode := false |})) ;;
        emit EAppendChild ;;
        assign (set_canvas
                  (Some {| canvas_width := num_of_Z 300;
                           canvas_height := num_of_Z 150;
                           parentNode := true |})) ;;
        has2d <- ask context2d_available ;;
        assign (set_ctx
                  (if has2d
                   then Some {| m_a := num_of_Z 1; m_b := num0; m_c := num0;
                                m_d := num_of_Z 1; m_e := num0; m_f := num0 |}
                   else None)) ;;
        resize ;;
        _bindListeners ;;
        assign (set_enabled true) ;;
        assign (set_ready true) ;;
        emit (ELog "Overlay initialized") ;;
        _startLoop.

(** [new Overlay(player)]. *)
Definition constructor (p : Host) : Completion unit * World :=
  (en <- ask overlay_enabled ;; if en then setup else ret tt)
    {| this := new_overlay; host := p |}.

(** *** The browser running what it holds *)

(** The browser fires the animation frame registration [h], if it is still
    held: the registration is used up and [loop] runs. *)
Definition fire_raf (h : nat) : M unit :=
  fun w =>
    let p := host w in
    if existsb (Nat.eqb h) (rafPending p) then
      rafCallback
        {| this := this w;
           host := set_browser (remove_handle h (rafPending p)) (rvfcPending p)
                     (nextHandle p) (trace p) p |}
    else (Normal tt, w).

(** The same for a video frame registration. *)
Definition fire_rvfc (h : nat) : M unit :=
  fun w =>
    let p := host w in
    if existsb (Nat.eqb h) (rvfcPending p) then
      rvfcCallback
        {| this := this w;
           host := set_browser (rafPending p) (remove_handle h (rvfcPending p))
                     (nextHandle p) (trace p) p |}
    else (Normal tt, w).

(** What the browser may do on its own after the plugin returns: fire a
    registration it holds, or run a callback it had already taken off its
    list. *)
Inductive BrowserStep : Type :=
| FireRaf (h : nat)
| FireRvfc (h : nat)
| RunLoop
| RunVideoFrameCallback.

Definition browser_step (b : BrowserStep) : M unit :=
  match b with
  | FireRaf h => fire_raf h
  | FireRvfc h => fire_rvfc h
  | RunLoop => rafCallback
  | RunVideoFrameCallback => rvfcCallback
  end.

Fixpoint browser_steps (bs : list BrowserStep) : M unit :=
  match bs with
  | [] => ret tt
  | b :: rest => browser_step b ;; browser_steps rest
  end.

(** ** Vocabulary of the properties *)

(** The renderer calls among the recorded calls. *)
Definition renderer_calls (tr : list Event) : list Event :=
  filter (fun e => match e with ERenderer _ _ _ _ => true | _ => false end) tr.

(** A recorded call that hands no frame data to the renderer: any call but a
    renderer call, or a renderer call with [null] data and [null] frame id. *)
Definition delivers_nothing (e : Event) : bool :=
  match e with
  | ERenderer _ VNull _ VNull => true
  | ERenderer _ _ _ _ => false
  | _ => true
  end.

(** The surface is attached: canvas and context exist and the player has its
    wrapper, so that [render] and [resize] pass their guards. *)
Definition surface_attached (w : World) : Prop :=
  canvas (this w) <> None /\ ctx (this w) <> None /\ wrapper (host w) <> None.

(** A registered renderer can be called and returns: the media element whose
    size [getVideoRect] reads exists, and the function does not throw. *)
Definition renderer_returns (w : World) : Prop :=
  match renderer (this w) with
  | VFunction fn => media (host w) <> None /\ fn_throws (host w) fn = false
  | _ => True
  end.

(** The frame data slot is empty. *)
Definition slot_empty (w : World) : Prop :=
  frameData (this w) = VNull /\ activeFrameId (this w) = VNull.

(** A run that hands no data to the renderer and ends with the slot empty. *)
Definition quiet_run (m : M unit) (w : World) : Prop :=
  exists added,
    trace (host (snd (m w))) = trace (host w) ++ added
    /\ forallb delivers_nothing added = true
    /\ slot_empty (snd (m w)).

(** The registrations the browser holds for the plugin. *)
Definition registrations (w : World) : list nat :=
  rafPending (host w) ++ rvfcPending (host w).

(** The loop has ended in [w1], reached from [w]: whatever the browser still
    runs afterwards changes neither the instance nor the recorded calls, the
    animation frame handle held in [w] is revoked by [cancelAnimationFrame],
    and the video frame handle held in [w] is revoked by
    [cancelVideoFrameCallback] when the media element provides it. *)
Definition loop_ended (w w1 : World) : Prop :=
  _running (this w1) = false
  /\ (forall bs, exists w2,
        browser_steps bs w1 = (Normal tt, w2)
        /\ this w2 = this w1 /\ trace (host w2) = trace (host w1))
  /\ (forall h, _rafId (this w) = Some h ->
        ~ In h (rafPending (host w1))
        /\ In (ECancelAnimationFrame h) (trace (host w1)))
  /\ (forall h video, _rvfcId (this w) = Some h ->
        media (host w) = Some video ->
        has_cancelVideoFrameCallback video = true ->
        ~ In h (rvfcPending (host w1))
        /\ In (ECancelVideoFrameCallback h) (trace (host w1))).

End Plugin.

Arguments VNull {num}.
Arguments VUndefined {num}.
Arguments new_overlay {num}.
Arguments num0 {num N}.
Arguments render {num N}.
Arguments resize {num N}.
Arguments getVideoRect {num N}.
Arguments _startLoop {num}.
Arguments _stopLoop {num}.
Arguments destroy {num}.
Arguments setup {num N}.
Arguments clear {num N}.
Arguments rafCallback {num N}.
Arguments rvfcCallback {num N}.
Arguments _rafLoop {num}.
Arguments _rvfcLoop {num}.

(** ** Sequences of calls *)

Section Calls.

Variable num : Type.
Context {N : JSNumber num}.

(** What a [render] that returns records: nothing when it stops at a guard,
    otherwise the clearing of the canvas and, when a renderer is registered
    and the media element exists, the call of the renderer. *)
Definition render_events (w : World num) : list (Event num) :=
  match ctx (this w), canvas (this w), wrapper (host w) with
  | Some _, Some _, Some rect =>
      EClearRect num0 num0 (dom_width rect) (dom_height rect)
      :: match renderer (this w), media (host w) with
         | VFunction _ fn, Some video =>
             [ERenderer fn (frameData (this w))
                (fitVideoRect (dom_width rect) (dom_height rect)
                   (videoWidth video) (videoHeight video))
                (activeFrameId (this w))]
         | _, _ => []
         end
  | _, _, _ => []
  end.

(** What the host page and the browser can do with an overlay: call one of
    its methods, or fire a registration the browser holds. *)
Inductive Call : Type :=
| CallSetup
| CallResize
| CallGetVideoRect
| CallStartLoop
| CallStopLoop
| CallSetFrameData (frameId detections : JSValue num)
| CallSetRenderer (callback : JSValue num)
| CallRender
| CallClear
| CallDestroy
| AnimationFrame (h : nat)
| VideoFrame (h : nat).

(** The world after a call, whether the call returned or threw. *)
Definition run_call (c : Call) (w : World num) : World num :=
  match c with
  | CallSetup => snd (setup w)
  | CallResize => snd (resize w)
  | CallGetVideoRect => snd (getVideoRect w)
  | CallStartLoop => snd (_startLoop w)
  | CallStopLoop => snd (_stopLoop w)
  | CallSetFrameData frameId detections => snd (setFrameData frameId detections w)
  | CallSetRenderer callback => snd (setRenderer callback w)
  | CallRender => snd (render w)
  | CallClear => snd (clear w)
  | CallDestroy => snd (destroy w)
  | AnimationFrame h => snd (fire_raf h w)
  | VideoFrame h => snd (fire_rvfc h w)
  end.

Fixpoint run_calls (cs : list Call) (w : World num) : World num :=
  match cs with
  | [] => w
  | c :: rest => run_calls rest (run_call c w)
  end.

(** A media element that takes video frame callbacks can also cancel them. *)
Definition cancel_available (p : Host num) : Prop :=
  forall video, media p = Some video ->
    has_requestVideoFrameCallback video = true ->
    has_cancelVideoFrameCallback video = true.

(** At most one loop: the browser holds nothing for the plugin, or the loop
    runs and the browser holds the one registration whose handle the
    instance keeps (on a media element that can cancel it, for a video frame
    registration). *)
Definition one_loop (w : World num) : Prop :=
  (rafPending (host w) = [] /\ rvfcPending (host w) = [])
  \/ (_running (this w) = true
      /\ exists h,
           (rafPending (host w) = [h] /\ rvfcPending (host w) = []
            /\ _rafId (this w) = Some h)
           \/ (rvfcPending (host w) = [h] /\ rafPending (host w) = []
               /\ _rvfcId (this w) = Some h
               /\ exists video, media (host w) = Some video
                    /\ has_cancelVideoFrameCallback video = true)).

(** The invariant of the loop, on a player whose media element can cancel
    what it registers. *)
Definition loop_invariant (w : World num) : Prop :=
  one_loop w /\ cancel_available (host w).

(** What no method changes: the player, its configuration and the window. *)
Definition same_player (p q : Host num) : Prop :=
  isVideo q = isVideo p /\ wrapper q = wrapper p /\ media q = media p
  /\ overlay_enabled q = overlay_enabled p
  /\ useVideoFrameCallback q = useVideoFrameCallback p
  /\ devicePixelRatio q = devicePixelRatio p
  /\ context2d_available q = context2d_available p
  /\ fn_throws q = fn_throws p.

(** A method keeps a property of the world, whether it returns or throws. *)
Definition keeps {A} (P : World num -> Prop) (m : M num A) : Prop :=
  forall w, P w -> P (snd (m w)).

End Calls.

Arguments CallSetup {num}.
Arguments CallResize {num}.
Arguments CallGetVideoRect {num}.
Arguments CallStartLoop {num}.
Arguments CallStopLoop {num}.
Arguments CallRender {num}.
Arguments CallClear {num}.
Arguments CallDestroy {num}.
Arguments AnimationFrame {num} h.
Arguments VideoFrame {num} h.


(** ** Concrete players, in binary64 *)

(** A video player whose wrapper measures [cw] by [ch] CSS pixels, showing a
    video of intrinsic size [vw] by [vh] on a display of pixel ratio [dpr];
    [rvfc] and [cancel] tell which video frame callback methods exist. *)
Definition video_player (cw ch vw vh dpr : float) (rvfc cancel : bool) : Host float :=
  {| isVideo := true;
     wrapper := Some {| dom_width := cw; dom_height := ch |};
     media := Some {| videoWidth := vw; videoHeight := vh;
                      has_requestVideoFrameCallback := rvfc;
                      has_cancelVideoFrameCallback := cancel |};
     overlay_enabled := true;
     useVideoFrameCallback := true;
     devicePixelRatio := dpr;
     context2d_available := true;
     fn_throws := fun _ => false;
     rafPending := [];
     rvfcPending := [];
     nextHandle := 0;
     trace := [] |}.

(** The world once [new Overlay(player)] has returned. *)
Definition constructed (p : Host float) : World float := snd (constructor p).

(** The world after running a method. *)
Definition after {num A} (m : M num A) (w : World num) : World num := snd (m w).

(** The player loses its wrapper element. *)
Definition without_wrapper {num} (w : World num) : World num :=
  let p := host w in
  {| this := this w;
     host := {| isVideo := isVideo p; wrapper := None; media := media p;
                overlay_enabled := overlay_enabled p;
                useVideoFrameCallback := useVideoFrameCallback p;
                devicePixelRatio := devicePixelRatio p;
                context2d_available := context2d_available p;
                fn_throws := fn_throws p;
                rafPending := rafPending p; rvfcPending := rvfcPending p;
                nextHandle := nextHandle p; trace := trace p |} |}.

(** A square wrapper around a video whose metadata has not loaded. *)
Definition unknown_size_world : World float :=
  constructed (video_player 800 800 0 0 1 true true).



(** A 1080p video in an 800 by 450 wrapper on a display of pixel ratio 2,
    with renderer number 7 registered. *)
Definition rendering_world : World float :=
  after (setRenderer (VFunction float 7))
        (constructed (video_player 800 450 1920 1080 2 true true)).

(** The same, on a media element that can register video frame callbacks
    but cannot cancel them. *)
Definition no_cancel_world : World float :=
  constructed (video_player 800 450 1920 1080 2 true false).

(** The same, in a browser without video frame callbacks. *)
Definition raf_world : World float :=
  constructed (video_player 800 450 1920 1080 2 false false).

(** Frame 1 with detections object 5 has been stored. *)
Definition pending_data_world : World float :=
  after (setFrameData (VNumber 1%float) (VObject float 5)) rendering_world.

(** The same, after the player has lost its wrapper. *)
Definition stale_data_world : World float := without_wrapper pending_data_world.

(** An overlay that has not been set up: nothing runs, nothing is pending. *)
Definition idle_world : World float :=
  {| this := new_overlay;
     host := video_player 800 450 1920 1080 2 true true |}.

(** The player loses its media element. *)
Definition without_media {num} (w : World num) : World num :=
  let p := host w in
  {| this := this w;
     host := {| isVideo := isVideo p; wrapper := wrapper p; media := None;
                overlay_enabled := overlay_enabled p;
                useVideoFrameCallback := useVideoFrameCallback p;
                devicePixelRatio := devicePixelRatio p;
                context2d_available := context2d_available p;
                fn_throws := fn_throws p;
                rafPending := rafPending p; rvfcPending := rvfcPending p;
                nextHandle := nextHandle p; trace := trace p |} |}.

(** A browser whose canvas gives no 2D context. *)
Definition without_context {num} (w : World num) : World num :=
  let p := host w in
  {| this := this w;
     host := {| isVideo := isVideo p; wrapper := wrapper p; media := media p;
                overlay_enabled := overlay_enabled p;
                useVideoFrameCallback := useVideoFrameCallback p;
                devicePixelRatio := devicePixelRatio p;
                context2d_available := false;
                fn_throws := fn_throws p;
                rafPending := rafPending p; rvfcPending := rvfcPending p;
                nextHandle := nextHandle p; trace := trace p |} |}.

(** Every function handed to the plugin throws when called. *)
Definition with_throwing_renderer {num} (w : World num) : World num :=
  let p := host w in
  {| this := this w;
     host := {| isVideo := isVideo p; wrapper := wrapper p; media := media p;
                overlay_enabled := overlay_enabled p;
                useVideoFrameCallback := useVideoFrameCallback p;
                devicePixelRatio := devicePixelRatio p;
                context2d_available := context2d_available p;
                fn_throws := fun _ => true;
                rafPending := rafPending p; rvfcPending := rvfcPending p;
                nextHandle := nextHandle p; trace := trace p |} |}.

(** An overlay not yet set up in a browser without a 2D context, one on a
    player without media element, and a running overlay whose renderer
    throws. *)
Definition no_context_world : World float := without_context idle_world.
Definition no_media_world : World float := without_media idle_world.
Definition throwing_world : World float := with_throwing_renderer rendering_world.

(** A running loop driven by [requestAnimationFrame], with renderer 7. *)
Definition raf_rendering_world : World float :=
  after (setRenderer (VFunction float 7)) raf_world.

(** A session of the page and the browser with an overlay. *)
Definition session : list (Call float) :=
  [CallSetup; CallSetRenderer (VFunction float 7);
   CallSetFrameData (VNumber 1%float) (VObject float 5);
   VideoFrame 0; CallResize; VideoFrame 1; CallDestroy; CallSetup;
   VideoFrame 2; CallStopLoop; VideoFrame 3; CallStartLoop].

(** ** A concrete player, in exact arithmetic *)

(** A 1080p video in a square wrapper of 800 CSS pixels. *)
Definition exact_world : World Q :=
  {| this := new_overlay;
     host := {| isVideo := true;
                wrapper := Some {| dom_width := 800; dom_height := 800 |};
                media := Some {| videoWidth := 1920; videoHeight := 1080;
                                 has_requestVideoFrameCallback := true;
                                 has_cancelVideoFrameCallback := true |};
                overlay_enabled := false;
                useVideoFrameCallback := true;
                devicePixelRatio := 2;
                context2d_available := true;
                fn_throws := fun _ => false;
                rafPending := []; rvfcPending := []; nextHandle := 0;
                trace := [] |} |}.

(** * Properties *)

(** ** Geometry *)

Section GeometryFacts.

Variable num : Type.
Context {N : JSNumber num}.
Local Open Scope js_scope.

(** The defaults make both operands of the zero test truthy, so the
    full-container return of line 171 is never taken. *)
Lemma fitVideoRect_defaults (cw ch videoWidth videoHeight : num) :
  to_boolean (num_of_Z 1920) = true ->
  to_boolean (num_of_Z 1080) = true ->
  let vw := videoWidth ||| num_of_Z 1920 in
  let vh := videoHeight ||| num_of_Z 1080 in
  to_boolean vw = true /\ to_boolean vh = true.
Proof.
  intros H1920 H1080; unfold num_or; split.
  - destruct (to_boolean videoWidth) eqn:E; assumption.
  - destruct (to_boolean videoHeight) eqn:E; assumption.
Qed.

(** C1 (as the code has it): when the intrinsic width or height of the media
    is zero or unknown, [getVideoRect] does not fail and does not fall back to
    the container rectangle: it puts 1920 in place of a missing width and 1080
    in place of a missing height and returns the aspect fit of these
    dimensions, for every wrapper size. *)
Theorem getVideoRect_unknown_size_uses_defaults
    (w : World num) (rect : DOMRect num) (video : Media num) :
  to_boolean (num_of_Z 1920) = true ->
  to_boolean (num_of_Z 1080) = true ->
  wrapper (host w) = Some rect ->
  media (host w) = Some video ->
  to_boolean (videoWidth video) = false \/ to_boolean (videoHeight video) = false ->
  let cw := dom_width rect in
  let ch := dom_height rect in
  let vw := if to_boolean (videoWidth video) then videoWidth video else num_of_Z 1920 in
  let vh := if to_boolean (videoHeight video) then videoHeight video else num_of_Z 1080 in
  getVideoRect w =
    (Normal
       (if cw / ch >? vw / vh
        then {| rect_x := (cw - ch * (vw / vh)) / num_of_Z 2;
                rect_y := num_of_Z 0;
                rect_w := ch * (vw / vh);
                rect_h := ch |}
        else {| rect_x := num_of_Z 0;
                rect_y := (ch - cw / (vw / vh)) / num_of_Z 2;
                rect_w := cw;
                rect_h := cw / (vw / vh) |}),
     w).
Proof.
  intros H1920 H1080 Hwr Hm _ cw ch vw vh.
  unfold getVideoRect, bind, ask, ret. rewrite Hwr, Hm.
  unfold fitVideoRect.
  destruct (fitVideoRect_defaults cw ch (videoWidth video) (videoHeight video)
              H1920 H1080) as [Hvw Hvh].
  unfold num_or in *. fold vw vh in Hvw, Hvh |- *.
  rewrite Hvw, Hvh. reflexivity.
Qed.

End GeometryFacts.

(** The theorem at a square wrapper around a video without metadata. *)
Lemma getVideoRect_unknown_size_uses_defaults_witness :
  getVideoRect unknown_size_world =
    (Normal {| rect_x := 0%float; rect_y := 175%float;
               rect_w := 800%float; rect_h := 450%float |},
     unknown_size_world).
Proof.
  exact (@getVideoRect_unknown_size_uses_defaults float binary64
           unknown_size_world
           {| dom_width := 800%float; dom_height := 800%float |}
           {| videoWidth := 0%float; videoHeight := 0%float;
              has_requestVideoFrameCallback := true;
              has_cancelVideoFrameCallback := true |}
           eq_refl eq_refl eq_refl eq_refl (or_introl eq_refl)).
Defined.

(** C1 fails as stated: with an 800 by 800 wrapper and a video whose size is
    still zero, the result is the 16:9 band [{0, 175, 800, 450}] and not the
    container rectangle [{0, 0, 800, 800}]. *)
Lemma getVideoRect_unknown_size_not_container :
  fst (getVideoRect unknown_size_world) =
    Normal {| rect_x := 0%float; rect_y := 175%float;
              rect_w := 800%float; rect_h := 450%float |}
  /\ fst (getVideoRect unknown_size_world) <>
    Normal {| rect_x := 0%float; rect_y := 0%float;
              rect_w := 800%float; rect_h := 800%float |}.
Proof.
  split.
  - vm_compute. reflexivity.
  - intro H.
    apply (f_equal (fun c => match c with
                             | Normal r => PrimFloat.eqb (rect_y r) 175%float
                             | Throw _ => false
                             end)) in H.
    vm_compute in H. discriminate H.
Qed.

(** *** In exact arithmetic *)

Section ExactGeometry.

Local Open Scope Q_scope.

Lemma exact_truthy (a : Q) : 0 < a -> @to_boolean Q exact a = true.
Proof.
  intro Ha. simpl. destruct (Qeq_bool a 0) eqn:E; [|reflexivity].
  apply Qeq_bool_iff in E. lra.
Qed.

Lemma exact_gt_true (a b : Q) : @num_gt Q exact a b = true -> b < a.
Proof.
  simpl. intro H. apply negb_true_iff in H.
  apply Qnot_le_lt. intro Hle. apply Qle_bool_iff in Hle. congruence.
Qed.

Lemma exact_gt_false (a b : Q) : @num_gt Q exact a b = false -> a <= b.
Proof.
  simpl. intro H. apply negb_false_iff in H. now apply Qle_bool_iff.
Qed.

Lemma Qdiv_pos (a b : Q) : 0 < a -> 0 < b -> 0 < a / b.
Proof. intros Ha Hb. apply Qlt_shift_div_l; lra. Qed.

(** Pillarbox branch: the container is relatively wider than the video. *)
Lemma pillarbox_fits (cw ch r : Q) :
  0 < ch -> 0 < r -> r < cw / ch ->
  ch * r <= cw /\ 0 <= (cw - ch * r) / 2 /\ (cw - ch * r) / 2 + ch * r <= cw
  /\ ch * r / ch == r.
Proof.
  intros Hch Hr Hlt.
  assert (Hcw : cw == cw / ch * ch) by (field; lra).
  assert (Hp : ch * r < cw / ch * ch).
  { rewrite (Qmult_comm ch r). apply Qmult_lt_compat_r; assumption. }
  rewrite <- Hcw in Hp.
  repeat split; try lra.
  - apply Qle_shift_div_l; lra.
  - assert (Hh : (cw - ch * r) / 2 == (1 # 2) * cw - (1 # 2) * (ch * r)) by field.
    rewrite Hh. lra.
  - field. lra.
Qed.

(** Letterbox branch: the container is not wider than the video. *)
Lemma letterbox_fits (cw ch r : Q) :
  0 < cw -> 0 < ch -> 0 < r -> cw / ch <= r ->
  cw / r <= ch /\ 0 <= (ch - cw / r) / 2 /\ (ch - cw / r) / 2 + cw / r <= ch
  /\ cw / (cw / r) == r.
Proof.
  intros Hcw Hch Hr Hle.
  assert (Hc : cw <= r * ch).
  { assert (E : cw == cw / ch * ch) by (field; lra).
    rewrite E. apply Qmult_le_compat_r; lra. }
  assert (Hq : cw / r <= ch).
  { apply Qle_shift_div_r; [assumption | lra]. }
  repeat split; try assumption.
  - apply Qle_shift_div_l; lra.
  - assert (Hh : (ch - cw / r) / 2 == (1 # 2) * ch - (1 # 2) * (cw / r))
      by (field; lra).
    rewrite Hh. lra.
  - field. split; lra.
Qed.

(** The geometry as designed: for positive wrapper and video sizes, with the
    divisions and products of [getVideoRect] taken exactly, the rectangle
    lies within the wrapper, has the aspect ratio of the video, and is the
    whole wrapper with zero offsets when the two ratios agree. *)
Theorem getVideoRect_exact_fit
    (w : World Q) (rect : DOMRect Q) (video : Media Q) :
  wrapper (host w) = Some rect ->
  media (host w) = Some video ->
  0 < dom_width rect -> 0 < dom_height rect ->
  0 < videoWidth video -> 0 < videoHeight video ->
  exists r,
    getVideoRect w = (Normal r, w)
    /\ 0 < rect_w r /\ 0 < rect_h r
    /\ 0 <= rect_x r /\ 0 <= rect_y r
    /\ rect_x r + rect_w r <= dom_width rect
    /\ rect_y r + rect_h r <= dom_height rect
    /\ rect_w r / rect_h r == videoWidth video / videoHeight video
    /\ (dom_width rect / dom_height rect == videoWidth video / videoHeight video ->
        rect_x r == 0 /\ rect_y r == 0
        /\ rect_w r == dom_width rect /\ rect_h r == dom_height rect).
Proof.
  intros Hwr Hm Hcw Hch Hvw Hvh.
  unfold getVideoRect, bind, ask, ret. rewrite Hwr, Hm.
  eexists; split; [reflexivity|].
  destruct rect as [cw ch], video as [vw vh rq cn]; cbn [dom_width dom_height
    videoWidth videoHeight] in *.
  unfold fitVideoRect, num_or.
  rewrite (exact_truthy Hvw), (exact_truthy Hvh). cbv zeta iota.
  rewrite (exact_truthy Hvw), (exact_truthy Hvh). cbn [negb orb].
  pose proof (Qdiv_pos Hvw Hvh) as Hr.
  destruct (@num_gt Q exact (@num_div Q exact cw ch) (@num_div Q exact vw vh)) eqn:G;
    cbn [rect_x rect_y rect_w rect_h];
    change (@num_div Q exact) with Qdiv in *;
    change (@num_sub Q exact) with Qminus;
    change (@num_mul Q exact) with Qmult;
    change (@num0 Q exact) with 0;
    change (@num_of_Z Q exact 2) with 2.
  - apply exact_gt_true in G.
    destruct (pillarbox_fits (cw := cw) Hch Hr G) as (Hw & Hx & Hxw & Hratio).
    split; [apply Qmult_lt_0_compat; assumption|]. split; [exact Hch|].
    split; [exact Hx|]. split; [lra|]. split; [exact Hxw|]. split; [lra|].
    split; [exact Hratio|].
    intro Heq. rewrite Heq in G. lra.
  - apply exact_gt_false in G.
    destruct (letterbox_fits Hcw Hch Hr G) as (Hh & Hy & Hyh & Hratio).
    split; [exact Hcw|]. split; [apply Qdiv_pos; assumption|].
    split; [lra|]. split; [exact Hy|]. split; [lra|]. split; [exact Hyh|].
    split; [exact Hratio|].
    intro Heq.
    assert (E : cw / (vw / vh) == ch).
    { rewrite <- Heq. field. split; lra. }
    split; [reflexivity|]. split; [|split; [reflexivity | exact E]].
    rewrite E. field.
Qed.

End ExactGeometry.

(** The theorem at a 1080p video in a square wrapper: the spec's example
    [{0, 175, 800, 450}]. *)
Lemma getVideoRect_exact_fit_witness :
  exists r,
    getVideoRect exact_world = (Normal r, exact_world)
    /\ (0 < rect_w r /\ 0 < rect_h r
    /\ 0 <= rect_x r /\ 0 <= rect_y r
    /\ rect_x r + rect_w r <= 800
    /\ rect_y r + rect_h r <= 800
    /\ rect_w r / rect_h r == 1920 / 1080
    /\ (800 / 800 == 1920 / 1080 ->
        rect_x r == 0 /\ rect_y r == 0 /\ rect_w r == 800 /\ rect_h r == 800))%Q.
Proof.
  exact (@getVideoRect_exact_fit exact_world
           {| dom_width := 800%Q; dom_height := 800%Q |}
           {| videoWidth := 1920%Q; videoHeight := 1080%Q;
              has_requestVideoFrameCallback := true;
              has_cancelVideoFrameCallback := true |}
           eq_refl eq_refl eq_refl eq_refl eq_refl eq_refl).
Defined.

(** *** In binary64

    Each operation of [getVideoRect] on sizes a screen can have gives a
    normal number, so it is the exact result times [1 + d] with [d] at most
    the unit roundoff in magnitude.  This is derived below from [SpecFloat],
    and carried through the two branches of the fit. *)

Section Binary64Geometry.

Local Open Scope Q_scope.

(** **** Powers of two *)







Lemma pow2_lt a b : (a < b)%Z -> pow2 a < pow2 b.
Proof. intro H. apply Qpower_lt_compat_l; [assumption|]. reflexivity. Qed.






(** **** Shifting with round and sticky bits *)







Lemma represents_of_loc m l q :
  (0 <= m)%Z ->
  location_ok (shr_r (shr_record_of_loc m l)) (shr_s (shr_record_of_loc m l)) (q - inject_Z m) ->
  represents (shr_record_of_loc m l) q.
Proof.
  intros H0 H. split; destruct l as [|[]]; simpl in *; auto.
Qed.


(** **** Rounding to 53 digits *)








(** **** Product, quotient, difference and comparison of normal numbers *)













(** **** The primitive operations *)












(** **** Relative errors along the two branches *)








(** **** The rectangle *)







End Binary64Geometry.



(** ** The surface, the renderer and the frame data slot *)

(** Name every field of a world. *)
Ltac open_world w :=
  let o := fresh "o" in
  let p := fresh "p" in
  destruct w as [o p]; destruct o, p;
  cbn [this host canvas ctx enabled ready frameData activeFrameId renderer
       _rafId _rvfcId _running isVideo wrapper media overlay_enabled
       useVideoFrameCallback devicePixelRatio context2d_available fn_throws
       rafPending rvfcPending nextHandle trace] in *.

(** Unfold the monad down to pairs of a completion and a world. *)
Ltac run_monad :=
  unfold bind, ret, throw, get, ask, assign, emit in *;
  cbn [this host canvas ctx enabled ready frameData activeFrameId renderer
       _rafId _rvfcId _running isVideo wrapper media overlay_enabled
       useVideoFrameCallback devicePixelRatio context2d_available fn_throws
       rafPending rvfcPending nextHandle trace
       set_canvas set_ctx set_enabled set_ready set_frameData
       set_activeFrameId set_renderer set_rafId set_rvfcId set_running
       set_browser fst snd] in *.

(** An event is among the recorded calls, which grow at the end. *)
Ltac in_trace :=
  repeat (apply in_or_app; first [right; cbn; auto; fail | left]);
  cbn; auto.

Section PluginFacts.

Variable num : Type.
Context {N : JSNumber num}.
Local Open Scope js_scope.

(** C9: [setRenderer] always returns.  A value that is neither a function nor
    [null] is answered with a warning and leaves the instance, the renderer in
    particular, as it was; a function or [null] becomes the renderer. *)
Theorem setRenderer_validates (w : World num) (callback : JSValue num) :
  exists w',
    setRenderer callback w = (Normal tt, w')
    /\ (is_function callback = false -> callback <> VNull ->
        this w' = this w
        /\ renderer (this w') = renderer (this w)
        /\ trace (host w') =
           trace (host w) ++ [EWarn num "Overlay renderer must be a function or null"])
    /\ (is_function callback = true \/ callback = VNull ->
        renderer (this w') = callback
        /\ trace (host w') = trace (host w)).
Proof.
  unfold setRenderer.
  destruct callback; cbn [is_function negb andb]; run_monad;
    eexists; (split; [reflexivity|]); cbn [this host trace renderer set_renderer];
    split; intros; try discriminate; try congruence; auto;
    match goal with
    | H : _ \/ _ |- _ => destruct H; discriminate
    end.
Qed.

(** [render] leaves the canvas, the context, the loop state and everything it
    reads from the player and the window as they are. *)
Lemma render_preserves (w : World num) :
  let w' := snd (render w) in
  canvas (this w') = canvas (this w)
  /\ ctx (this w') = ctx (this w)
  /\ renderer (this w') = renderer (this w)
  /\ _running (this w') = _running (this w)
  /\ _rafId (this w') = _rafId (this w)
  /\ _rvfcId (this w') = _rvfcId (this w)
  /\ wrapper (host w') = wrapper (host w)
  /\ media (host w') = media (host w)
  /\ devicePixelRatio (host w') = devicePixelRatio (host w)
  /\ fn_throws (host w') = fn_throws (host w)
  /\ useVideoFrameCallback (host w') = useVideoFrameCallback (host w)
  /\ rafPending (host w') = rafPending (host w)
  /\ rvfcPending (host w') = rvfcPending (host w)
  /\ nextHandle (host w') = nextHandle (host w).
Proof.
  open_world w. unfold render, getVideoRect, call_renderer. run_monad.
  destruct ctx0, canvas0, wrapper0; cbn; auto 20.
  destruct renderer0; cbn; auto 20.
  destruct media0; cbn; auto 20.
  destruct (fn_throws0 ref); cbn; auto 20.
Qed.

(** What [resize] does to the surface before it renders. *)
Lemma resize_surface (w : World num) (c : Canvas num) (cx : Context2D num)
    (rect : DOMRect num) :
  canvas (this w) = Some c -> ctx (this w) = Some cx ->
  wrapper (host w) = Some rect ->
  let dpr := devicePixelRatio (host w) ||| num_of_Z 1 in
  let w' := snd (resize w) in
  canvas (this w') =
    Some {| canvas_width := math_round (dom_width rect * dpr);
            canvas_height := math_round (dom_height rect * dpr);
            parentNode := parentNode c |}
  /\ ctx (this w') =
    Some {| m_a := dpr; m_b := num_of_Z 0; m_c := num_of_Z 0;
            m_d := dpr; m_e := num_of_Z 0; m_f := num_of_Z 0 |}
  /\ wrapper (host w') = wrapper (host w)
  /\ media (host w') = media (host w)
  /\ devicePixelRatio (host w') = devicePixelRatio (host w).
Proof.
  intros Hc Hx Hw dpr w'. subst w'.
  open_world w. subst. unfold resize. run_monad.
  match goal with
  | |- context [render ?v] =>
      pose proof (render_preserves v) as P; cbv zeta in P;
      destruct (render v) as [[u|e] w1]
  end;
    cbn [fst snd this host canvas ctx wrapper media devicePixelRatio] in *;
    intuition congruence.
Qed.

(** C7: after a call of [resize] on an attached surface the canvas holds
    [round (width * scale)] by [round (height * scale)] device pixels, where
    width and height are those of the wrapper's bounding box and [scale], the
    factor of the transform set on the context, is the window's device pixel
    ratio (or 1 when the window reports none). *)
Theorem resize_pixel_size (w : World num) (c : Canvas num) (cx : Context2D num)
    (rect : DOMRect num) :
  canvas (this w) = Some c -> ctx (this w) = Some cx ->
  wrapper (host w) = Some rect ->
  let w' := snd (resize w) in
  exists c' scale,
    canvas (this w') = Some c'
    /\ ctx (this w') =
       Some {| m_a := scale; m_b := num_of_Z 0; m_c := num_of_Z 0;
               m_d := scale; m_e := num_of_Z 0; m_f := num_of_Z 0 |}
    /\ canvas_width c' = math_round (dom_width rect * scale)
    /\ canvas_height c' = math_round (dom_height rect * scale)
    /\ scale = devicePixelRatio (host w) ||| num_of_Z 1
    /\ (to_boolean (devicePixelRatio (host w)) = true ->
        scale = devicePixelRatio (host w))
    /\ wrapper (host w') = Some rect
    /\ devicePixelRatio (host w') = devicePixelRatio (host w).
Proof.
  intros Hc Hx Hw w'.
  destruct (resize_surface w Hc Hx Hw) as (Hc' & Hx' & Hw' & _ & Hd').
  eexists; eexists. split; [exact Hc'|]. split; [exact Hx'|].
  cbn [canvas_width canvas_height].
  repeat split; try reflexivity; try assumption.
  - unfold num_or. intros ->. reflexivity.
  - subst w'. congruence.
Qed.

(** C8: a second call of [resize] right after the first, with the wrapper's
    box, the device pixel ratio and the video as they were, leaves the canvas
    size and the transform as the first call set them, and [getVideoRect]
    answers the same. *)
Theorem resize_idempotent (w : World num) (c : Canvas num) (cx : Context2D num)
    (rect : DOMRect num) :
  canvas (this w) = Some c -> ctx (this w) = Some cx ->
  wrapper (host w) = Some rect ->
  let w1 := snd (resize w) in
  let w2 := snd (resize w1) in
  canvas (this w2) = canvas (this w1)
  /\ ctx (this w2) = ctx (this w1)
  /\ fst (getVideoRect w2) = fst (getVideoRect w1).
Proof.
  intros Hc Hx Hw w1 w2.
  destruct (resize_surface w Hc Hx Hw) as (Hc1 & Hx1 & Hw1 & Hm1 & Hd1).
  fold w1 in Hc1, Hx1, Hw1, Hm1, Hd1.
  rewrite Hw in Hw1.
  destruct (resize_surface w1 Hc1 Hx1 Hw1) as (Hc2 & Hx2 & Hw2 & Hm2 & Hd2).
  fold w2 in Hc2, Hx2, Hw2, Hm2, Hd2.
  cbn [parentNode] in Hc2.
  rewrite Hd1 in Hc2, Hx2.
  split; [congruence|]. split; [congruence|].
  unfold getVideoRect. run_monad. rewrite Hw2, Hw1. cbv beta iota.
  rewrite Hm2. destruct (media (host w1)); reflexivity.
Qed.

End PluginFacts.

Section FrameDataFacts.

Variable num : Type.
Context {N : JSNumber num}.
Local Open Scope js_scope.

Lemma forallb_delivers_nothing_app (l1 l2 : list (Event num)) :
  forallb (@delivers_nothing num) l1 = true ->
  forallb (@delivers_nothing num) l2 = true ->
  forallb (@delivers_nothing num) (l1 ++ l2) = true.
Proof. intros H1 H2. rewrite forallb_app, H1, H2. reflexivity. Qed.

(** A world is attached or it is not. *)
Lemma surface_attached_dec (w : World num) :
  surface_attached w \/ ~ surface_attached w.
Proof.
  unfold surface_attached.
  destruct (canvas (this w)), (ctx (this w)), (wrapper (host w));
    try (left; repeat split; discriminate);
    right; intros (H1 & H2 & H3); congruence.
Qed.

(** [render] stopping at one of its guards changes nothing. *)
Lemma render_guard (w : World num) :
  ~ surface_attached w -> render w = (Normal tt, w).
Proof.
  unfold surface_attached. intro Hn.
  open_world w. unfold render. run_monad.
  destruct ctx0, canvas0; try reflexivity.
  destruct wrapper0; try reflexivity.
  exfalso. apply Hn. repeat split; discriminate.
Qed.

(** What [render] records and what it leaves in the slot. *)
Lemma render_spec (w : World num) :
  exists added,
    trace (host (snd (render w))) = trace (host w) ++ added
    /\ (slot_empty w -> forallb (@delivers_nothing num) added = true)
    /\ (fst (render w) = Normal tt -> surface_attached w ->
        slot_empty (snd (render w)))
    /\ (forall fn, renderer (this w) = VFunction num fn ->
        surface_attached w -> fst (render w) = Normal tt ->
        exists r,
          renderer_calls added =
            [ERenderer fn (frameData (this w)) r (activeFrameId (this w))])
    /\ (is_function (renderer (this w)) = false -> renderer_calls added = [])
    /\ (renderer_returns w -> fst (render w) = Normal tt)
    /\ (slot_empty w -> slot_empty (snd (render w))).
Proof.
  unfold surface_attached, renderer_returns, slot_empty.
  open_world w. unfold render, getVideoRect, call_renderer. run_monad.
  destruct ctx0 as [cx|], canvas0 as [cv|]; cbn;
    try (exists []; rewrite app_nil_r; repeat split; auto;
         try (intros; intuition congruence); fail).
  destruct wrapper0 as [rect|]; cbn;
    try (exists []; rewrite app_nil_r; repeat split; auto;
         try (intros; intuition congruence); fail).
  destruct renderer0; cbn;
    try (eexists; split; [reflexivity|]; cbn; repeat split; auto;
         intros; discriminate).
  destruct media0 as [video|]; cbn.
  - destruct (fn_throws0 ref) eqn:Ht; cbn;
      (eexists; split; [rewrite <- app_assoc; reflexivity|]); cbn;
      repeat split; intros; try discriminate; try tauto;
      try (intuition congruence).
    + destruct H as [-> ->]. reflexivity.
    + destruct H as [-> ->]. reflexivity.
    + inversion H; subst. eexists; reflexivity.
  - eexists; split; [reflexivity|]; cbn;
      repeat split; intros; try discriminate; try tauto;
      intuition congruence.
Qed.

Lemma quiet_run_nothing (w : World num) :
  slot_empty w -> quiet_run (ret tt) w.
Proof. intro Hw. exists []. cbn. rewrite app_nil_r. auto. Qed.

(** The closure [loop] on an empty slot. *)
Lemma rafCallback_empty_slot (w : World num) :
  slot_empty w -> quiet_run rafCallback w.
Proof.
  intro Hw. unfold quiet_run, rafCallback. unfold bind, get. cbv beta.
  destruct (_running (this w)); cbn [negb];
    [|exact (quiet_run_nothing Hw)].
  destruct (render_spec w) as (added & Htr & Hnull & _ & _ & _ & _ & Hkeep).
  specialize (Hnull Hw). specialize (Hkeep Hw).
  destruct (render w) as [[u|e] w1]; cbn [fst snd] in *.
  - unfold requestAnimationFrame, assign. cbn.
    exists (added ++ [ERequestAnimationFrame num (nextHandle (host w1))]).
    rewrite Htr, app_assoc. split; [reflexivity|].
    split; [|exact Hkeep].
    rewrite forallb_app, Hnull. reflexivity.
  - exists added. auto.
Qed.

(** The closure [callback] on an empty slot. *)
Lemma rvfcCallback_empty_slot (w : World num) :
  slot_empty w -> quiet_run rvfcCallback w.
Proof.
  intro Hw. unfold quiet_run, rvfcCallback. unfold bind, get, emit. cbv beta.
  destruct (_running (this w)); cbn [negb];
    [|exact (quiet_run_nothing Hw)].
  match goal with
  | |- context [render ?v0] => set (w' := v0)
  end.
  assert (Hw' : slot_empty w') by exact Hw.
  destruct (render_spec w') as (added & Htr & Hnull & _ & _ & _ & _ & Hkeep).
  specialize (Hnull Hw'). specialize (Hkeep Hw').
  destruct (render w') as [[u|e] w1]; cbn [fst snd] in *.
  - unfold requestVideoFrameCallback, assign. cbn.
    exists ([ETriggerEvent num "overlayframe"] ++ added
            ++ [ERequestVideoFrameCallback num (nextHandle (host w1))]).
    rewrite Htr. subst w'. cbn. rewrite <- !app_assoc.
    split; [reflexivity|]. split; [|exact Hkeep].
    rewrite forallb_app, Hnull. reflexivity.
  - exists ([ETriggerEvent num "overlayframe"] ++ added).
    rewrite Htr. subst w'. cbn. rewrite <- !app_assoc.
    split; [reflexivity|]. split; [exact Hnull | exact Hkeep].
Qed.

(** Any one thing the browser does on an empty slot. *)
Lemma browser_step_empty_slot (b : BrowserStep) (w : World num) :
  slot_empty w -> quiet_run (browser_step b) w.
Proof.
  intro Hw. destruct b as [h|h| |]; cbn [browser_step].
  - unfold quiet_run, fire_raf.
    destruct (existsb (Nat.eqb h) (rafPending (host w)));
      [|exact (quiet_run_nothing Hw)].
    match goal with
    | |- context [rafCallback ?v0] =>
        apply (rafCallback_empty_slot (w := v0)); exact Hw
    end.
  - unfold quiet_run, fire_rvfc.
    destruct (existsb (Nat.eqb h) (rvfcPending (host w)));
      [|exact (quiet_run_nothing Hw)].
    match goal with
    | |- context [rvfcCallback ?v0] =>
        apply (rvfcCallback_empty_slot (w := v0)); exact Hw
    end.
  - apply rafCallback_empty_slot; exact Hw.
  - apply rvfcCallback_empty_slot; exact Hw.
Qed.

(** And any sequence of them, by induction on the sequence. *)
Lemma browser_steps_empty_slot (bs : list BrowserStep) :
  forall w : World num, slot_empty w -> quiet_run (browser_steps bs) w.
Proof.
  induction bs as [|b bs IH]; intros w Hw; cbn [browser_steps].
  - apply quiet_run_nothing; exact Hw.
  - destruct (browser_step_empty_slot b Hw) as (added1 & Ht1 & Hn1 & Hs1).
    unfold quiet_run, bind.
    destruct (browser_step b w) as [[u|e] w1]; cbn [fst snd] in *.
    + destruct (IH w1 Hs1) as (added2 & Ht2 & Hn2 & Hs2).
      exists (added1 ++ added2). rewrite Ht2, Ht1, app_assoc.
      split; [reflexivity|]. split; [|exact Hs2].
      rewrite forallb_app, Hn1, Hn2. reflexivity.
    + exists added1. auto.
Qed.

End FrameDataFacts.

Section FrameDataDelivery.

Variable num : Type.
Context {N : JSNumber num}.
Local Open Scope js_scope.

(** Being attached and having a renderer that returns are not affected by
    [render]. *)
Lemma render_keeps_attached (w : World num) :
  surface_attached w -> renderer_returns w ->
  surface_attached (snd (render w)) /\ renderer_returns (snd (render w)).
Proof.
  unfold surface_attached, renderer_returns.
  destruct (render_preserves w)
    as (Hc & Hx & Hr & _ & _ & _ & Hw & Hm & _ & Ht & _).
  rewrite Hc, Hx, Hr, Hw, Hm, Ht. auto.
Qed.

(** C4 (as the code has it): a render tick that stops at a guard (no
    context, no canvas or no wrapper) leaves the world, the slot included, as
    it was.  A tick on an attached surface that returns leaves the slot
    empty, with or without a renderer.  So for [setFrameData] followed by two
    ticks on an attached surface, the payload and its frame id go to the
    renderer call of the first tick, and neither the second tick nor any
    callback the browser runs later hands a payload to the renderer. *)
Theorem frame_data_delivered_once (w : World num) :
  (~ surface_attached w -> render w = (Normal tt, w))
  /\ (surface_attached w -> fst (render w) = Normal tt ->
      slot_empty (snd (render w)))
  /\ (surface_attached w -> renderer_returns w ->
      forall frameId detections : JSValue num,
      exists w0 w1 w2 added1 added2,
        setFrameData frameId detections w = (Normal tt, w0)
        /\ render w0 = (Normal tt, w1)
        /\ render w1 = (Normal tt, w2)
        /\ slot_empty w1 /\ slot_empty w2
        /\ trace (host w1) = trace (host w) ++ added1
        /\ trace (host w2) = trace (host w1) ++ added2
        /\ (forall fn, renderer (this w) = VFunction num fn ->
            exists r, renderer_calls added1 = [ERenderer fn detections r frameId])
        /\ forallb (@delivers_nothing num) added2 = true
        /\ (forall bs, exists later,
              trace (host (snd (browser_steps bs w1))) = trace (host w1) ++ later
              /\ forallb (@delivers_nothing num) later = true)).
Proof.
  split; [apply render_guard|].
  split.
  { intros Ha Hn. destruct (render_spec w) as (added & _ & _ & Hs & _). auto. }
  intros Ha Hr frameId detections.
  set (w0 := {| this := set_frameData detections
                          (set_activeFrameId frameId (this w));
                host := host w |}).
  assert (Ha0 : surface_attached w0) by (destruct w as [[] []]; exact Ha).
  assert (Hr0 : renderer_returns w0) by (destruct w as [[] []]; exact Hr).
  destruct (render_spec w0) as (added1 & Ht1 & _ & Hs1 & Hc1 & _ & Hn1 & _).
  destruct (render_keeps_attached Ha0 Hr0) as [Ha1 Hr1].
  specialize (Hn1 Hr0). specialize (Hs1 Hn1 Ha0).
  destruct (render w0) as [c1 w1] eqn:E1. cbn [fst snd] in *. subst c1.
  destruct (render_spec w1) as (added2 & Ht2 & Hd2 & Hs2 & _ & _ & Hn2 & _).
  specialize (Hn2 Hr1). specialize (Hs2 Hn2 Ha1). specialize (Hd2 Hs1).
  destruct (render w1) as [c2 w2] eqn:E2. cbn [fst snd] in *. subst c2.
  exists w0, w1, w2, added1, added2.
  split; [reflexivity|]. split; [exact E1|]. split; [exact E2|].
  split; [exact Hs1|]. split; [exact Hs2|].
  split; [exact Ht1|]. split; [exact Ht2|].
  split; [|split; [exact Hd2|]].
  - intros fn Hfn.
    destruct (Hc1 fn Hfn Ha0 eq_refl) as [r Hcall].
    exists r. exact Hcall.
  - intro bs.
    destruct (browser_steps_empty_slot bs Hs1) as (later & Hl & Hn & _).
    exists later. auto.
Qed.

(** On an attached surface [resize] is [render] run after the canvas size and
    the transform have been set. *)
Lemma resize_attached (w : World num) (c : Canvas num) (cx : Context2D num)
    (rect : DOMRect num) :
  canvas (this w) = Some c -> ctx (this w) = Some cx ->
  wrapper (host w) = Some rect ->
  let dpr := devicePixelRatio (host w) ||| num_of_Z 1 in
  resize w =
    render
      {| this :=
           set_ctx (Some {| m_a := dpr; m_b := num0; m_c := num0;
                            m_d := dpr; m_e := num0; m_f := num0 |})
             (set_canvas
                (Some {| canvas_width := math_round (dom_width rect * dpr);
                         canvas_height := math_round (dom_height rect * dpr);
                         parentNode := parentNode c |})
                (this w));
         host :=
           set_browser (rafPending (host w)) (rvfcPending (host w))
             (nextHandle (host w))
             (trace (host w) ++ [ESetTransform dpr num0 num0 dpr num0 num0])
             (host w) |}.
Proof.
  intros Hc Hx Hw dpr. subst dpr.
  open_world w. subst. unfold resize. run_monad. reflexivity.
Qed.

(** C10: [resize] on an attached surface renders at once, so frame data
    stored before it is handed to the renderer call of that render, if a
    renderer is registered, and to no other; the slot is empty when [resize]
    returns, and whatever callback the browser runs next hands no payload to
    the renderer. *)
Theorem resize_consumes_frame_data (w : World num) :
  surface_attached w -> renderer_returns w ->
  exists w1 added,
    resize w = (Normal tt, w1)
    /\ slot_empty w1
    /\ trace (host w1) = trace (host w) ++ added
    /\ (forall fn, renderer (this w) = VFunction num fn ->
        exists r,
          renderer_calls added =
            [ERenderer fn (frameData (this w)) r (activeFrameId (this w))])
    /\ (is_function (renderer (this w)) = false -> renderer_calls added = [])
    /\ (forall bs, exists later,
          trace (host (snd (browser_steps bs w1))) = trace (host w1) ++ later
          /\ forallb (@delivers_nothing num) later = true).
Proof.
  intros Ha Hr.
  destruct Ha as (Hc & Hx & Hw).
  destruct (canvas (this w)) as [c|] eqn:Ec; [|congruence].
  destruct (ctx (this w)) as [cx|] eqn:Ex; [|congruence].
  destruct (wrapper (host w)) as [rect|] eqn:Ew; [|congruence].
  rewrite (resize_attached w Ec Ex Ew).
  match goal with
  | |- context [render ?v] => set (w' := v)
  end.
  assert (Ha' : surface_attached w').
  { subst w'. unfold surface_attached. cbn. rewrite Ew.
    repeat split; discriminate. }
  assert (Hr' : renderer_returns w').
  { subst w'. unfold renderer_returns in *. cbn.
    destruct (renderer (this w)); auto. }
  destruct (render_spec w') as (added & Ht & _ & Hs & Hcall & Hnone & Hn & _).
  specialize (Hn Hr'). specialize (Hs Hn Ha').
  destruct (render w') as [c1 w1] eqn:E1. cbn [fst snd] in *. subst c1.
  exists w1, (ESetTransform
                (devicePixelRatio (host w) ||| num_of_Z 1) num0 num0
                (devicePixelRatio (host w) ||| num_of_Z 1) num0 num0 :: added).
  split; [reflexivity|]. split; [exact Hs|].
  split.
  { rewrite Ht. subst w'. cbn. rewrite <- app_assoc. reflexivity. }
  split.
  { intros fn Hfn. destruct (Hcall fn Hfn Ha' eq_refl) as [r Hc1].
    exists r. exact Hc1. }
  split.
  { intro Hf. exact (Hnone Hf). }
  intro bs.
  destruct (browser_steps_empty_slot bs Hs) as (later & Ht' & Hn' & _).
  exists later. auto.
Qed.

End FrameDataDelivery.

(** ** The render loop *)

Section LoopFacts.

Variable num : Type.
Context {N : JSNumber num}.
Local Open Scope js_scope.

Lemma not_in_remove_handle (h : nat) (l : list nat) : ~ In h (remove_handle h l).
Proof.
  unfold remove_handle. intro H. apply filter_In in H as [_ H].
  rewrite Nat.eqb_refl in H. discriminate H.
Qed.

(** While the loop is stopped, a callback the browser runs returns at its
    first line. *)
Lemma stopped_browser_step (b : BrowserStep) (w : World num) :
  _running (this w) = false ->
  exists w', browser_step b w = (Normal tt, w')
             /\ this w' = this w /\ trace (host w') = trace (host w).
Proof.
  intro Hs.
  destruct b as [h|h| |]; cbn [browser_step].
  - unfold fire_raf.
    destruct (existsb (Nat.eqb h) (rafPending (host w))).
    + unfold rafCallback. run_monad. rewrite Hs. cbn.
      eexists; split; [reflexivity|]. cbn. auto.
    + exists w. auto.
  - unfold fire_rvfc.
    destruct (existsb (Nat.eqb h) (rvfcPending (host w))).
    + unfold rvfcCallback. run_monad. rewrite Hs. cbn.
      eexists; split; [reflexivity|]. cbn. auto.
    + exists w. auto.
  - unfold rafCallback. run_monad. rewrite Hs. cbn. exists w. auto.
  - unfold rvfcCallback. run_monad. rewrite Hs. cbn. exists w. auto.
Qed.

Lemma stopped_browser_steps (bs : list BrowserStep) :
  forall w : World num,
    _running (this w) = false ->
    exists w', browser_steps bs w = (Normal tt, w')
               /\ this w' = this w /\ trace (host w') = trace (host w).
Proof.
  induction bs as [|b bs IH]; intros w Hs; cbn [browser_steps].
  - exists w. auto.
  - destruct (stopped_browser_step b w Hs) as (w1 & E1 & Ht1 & Htr1).
    assert (Hs1 : _running (this w1) = false) by (rewrite Ht1; exact Hs).
    destruct (IH w1 Hs1) as (w2 & E2 & Ht2 & Htr2).
    exists w2. unfold bind. rewrite E1. split; [exact E2|].
    split; congruence.
Qed.

(** [_stopLoop] returns, with the loop ended. *)
Lemma stopLoop_ends_loop (w : World num) :
  exists w1, _stopLoop w = (Normal tt, w1)
             /\ loop_ended w w1
             /\ canvas (this w1) = canvas (this w).
Proof.
  unfold loop_ended.
  open_world w.
  unfold _stopLoop, cancelAnimationFrame, cancelVideoFrameCallback. run_monad.
  destruct _rafId0 as [hr|], _rvfcId0 as [hv|], media0 as [video|]; cbn;
    try destruct (has_cancelVideoFrameCallback video) eqn:Hcan; cbn;
    (eexists; split; [reflexivity|]);
    cbn [this host _running trace rafPending rvfcPending canvas];
    (split; [split; [reflexivity|]|reflexivity]);
    (split; [intro bs; apply stopped_browser_steps; reflexivity|]);
    (split; [intros h Hh | intros h v Hh Hv Hc]);
    try discriminate; try congruence;
    try (inversion Hh; subst; split;
         [apply not_in_remove_handle | in_trace]).
Qed.

(** C5: [_startLoop] on a running loop changes nothing, and so does
    [_stopLoop] on a stopped one: a second [_stopLoop] right after a first,
    and a [_stopLoop] when no handle is held.  [_stopLoop] always returns
    and registers nothing.  Starting twice from a stopped loop with
    nothing pending leaves exactly one registration with the browser. *)
Theorem start_stop_idempotent (w : World num) :
  (_running (this w) = true -> _startLoop w = (Normal tt, w))
  /\ (exists w1, _stopLoop w = (Normal tt, w1)
                 /\ _running (this w1) = false
                 /\ _stopLoop w1 = (Normal tt, w1)
                 /\ (registrations w = [] -> registrations w1 = []))
  /\ (_running (this w) = false -> _rafId (this w) = None ->
      _rvfcId (this w) = None -> _stopLoop w = (Normal tt, w))
  /\ (_running (this w) = false -> registrations w = [] ->
      useVideoFrameCallback (host w) = false \/ media (host w) <> None ->
      exists w1, _startLoop w = (Normal tt, w1)
                 /\ _startLoop w1 = (Normal tt, w1)
                 /\ _running (this w1) = true
                 /\ List.length (registrations w1) = 1%nat).
Proof.
  unfold registrations.
  open_world w.
  split; [|split; [|split]].
  - intros ->. reflexivity.
  - unfold _stopLoop, cancelAnimationFrame, cancelVideoFrameCallback. run_monad.
    destruct _rafId0 as [hr|], _rvfcId0 as [hv|], media0 as [video|]; cbn;
      try destruct (has_cancelVideoFrameCallback video) eqn:Hcan; cbn;
      (eexists; split; [reflexivity|]); cbn; rewrite ?Hcan;
      (split; [reflexivity|]); (split; [reflexivity|]);
      intro Hreg; apply app_eq_nil in Hreg as [-> ->]; reflexivity.
  - intros -> -> ->. unfold _stopLoop. run_monad. cbn.
    destruct media0; reflexivity.
  - intros -> Hreg Hm. apply app_eq_nil in Hreg as [-> ->].
    unfold _startLoop, _rvfcLoop, _rafLoop, requestAnimationFrame,
      requestVideoFrameCallback.
    run_monad. cbn.
    destruct useVideoFrameCallback0; cbn.
    + destruct media0 as [video|]; [|destruct Hm; congruence].
      destruct (has_requestVideoFrameCallback video); cbn;
        eexists; (split; [reflexivity|]); cbn; auto.
    + eexists; (split; [reflexivity|]); cbn; auto.
Qed.

(** C6 (as the code has it): [_stopLoop] and [destroy] return with the loop
    ended.  Whatever callback the browser runs afterwards, pending or already
    taken, returns at once: nothing is rendered and nothing is registered
    again.  The animation frame handle is revoked with
    [cancelAnimationFrame]; the video frame handle is revoked with
    [cancelVideoFrameCallback] when the media element exists and provides
    that method.  After [destroy] there is no canvas left, and a call of
    [render] or of [resize], which the fullscreen listeners still make,
    returns at once. *)
Theorem stop_and_destroy_end_loop (w : World num) :
  (exists w1, _stopLoop w = (Normal tt, w1) /\ loop_ended w w1)
  /\ (exists w1, destroy w = (Normal tt, w1) /\ loop_ended w w1
                 /\ canvas (this w1) = None /\ ctx (this w1) = None
                 /\ slot_empty w1
                 /\ render w1 = (Normal tt, w1)
                 /\ resize w1 = (Normal tt, w1)).
Proof.
  destruct (stopLoop_ends_loop w) as (w1 & E & Hend & Hcv).
  split; [exists w1; auto|].
  unfold destroy, bind at 1. rewrite E.
  destruct Hend as (Hrun & Hsteps & Hraf & Hrvfc).
  unfold _unbindListeners. run_monad.
  destruct (canvas (this w1)) as [c|];
    [destruct (parentNode c)|]; cbn;
    (eexists; split; [reflexivity|]);
    unfold loop_ended, slot_empty;
    cbn [this host _running trace rafPending rvfcPending canvas ctx
         frameData activeFrameId];
    (split; [|repeat split; reflexivity]);
    (split; [exact Hrun|]);
    (split; [intro bs; apply stopped_browser_steps; exact Hrun|]);
    (split; [intros h Hh; destruct (Hraf h Hh) as [Hn Hi]
            |intros h v Hh Hv Hc; destruct (Hrvfc h v Hh Hv Hc) as [Hn Hi]]);
    (split; [exact Hn|]);
    in_trace.
Qed.

End LoopFacts.

(** ** The properties at concrete players *)

(** C3 does not hold of the code: [render] tests only that a renderer is
    registered.  With renderer 7 registered and the slot empty, the video
    frame callback the browser holds renders, and the renderer is called with
    [null] data and [null] frame id. *)
Lemma render_calls_renderer_on_empty_slot :
  slot_empty rendering_world
  /\ fst (fire_rvfc 0 rendering_world) = Normal tt
  /\ renderer_calls (trace (host (after (fire_rvfc 0) rendering_world))) =
     [ERenderer 7 VNull
        {| rect_x := 0%float; rect_y := 0%float;
           rect_w := 800%float; rect_h := 450%float |}
        VNull].
Proof.
  split; [split; reflexivity|].
  split; vm_compute; reflexivity.
Qed.

(** C4 fails as stated: a tick that finds the wrapper gone returns at the
    guard of [render], and frame 1 with its detections is still in the
    slot when the tick has completed. *)
Lemma render_guard_keeps_frame_data :
  fst (fire_rvfc 0 stale_data_world) = Normal tt
  /\ frameData (this (after (fire_rvfc 0) stale_data_world)) = VObject float 5
  /\ activeFrameId (this (after (fire_rvfc 0) stale_data_world)) = VNumber 1%float
  /\ ~ slot_empty (after (fire_rvfc 0) stale_data_world).
Proof.
  split; [vm_compute; reflexivity|].
  split; [vm_compute; reflexivity|].
  split; [vm_compute; reflexivity|].
  intros [H _]. vm_compute in H. discriminate H.
Qed.

(** C6 fails as stated: on a media element without
    [cancelVideoFrameCallback] the registration made by [_startLoop] is still
    held by the browser after [_stopLoop] and after [destroy], and no
    cancellation call has been made. *)
Lemma stopLoop_without_cancel_method :
  _rvfcId (this no_cancel_world) = Some 0%nat
  /\ rvfcPending (host no_cancel_world) = [0%nat]
  /\ fst (_stopLoop no_cancel_world) = Normal tt
  /\ rvfcPending (host (after _stopLoop no_cancel_world)) = [0%nat]
  /\ trace (host (after _stopLoop no_cancel_world)) = trace (host no_cancel_world)
  /\ fst (destroy no_cancel_world) = Normal tt
  /\ rvfcPending (host (after destroy no_cancel_world)) = [0%nat]
  /\ trace (host (after destroy no_cancel_world)) =
     trace (host no_cancel_world)
     ++ [ERemoveEventListener float "window" "resize";
         ERemoveChild float; ELog float "Overlay destroyed"].
Proof.
  do 7 (split; [vm_compute; reflexivity|]).
  vm_compute; reflexivity.
Qed.

Lemma rendering_world_attached : surface_attached rendering_world.
Proof. vm_compute. repeat split; discriminate. Defined.

Lemma rendering_world_renderer_returns : renderer_returns rendering_world.
Proof. vm_compute. split; [discriminate | reflexivity]. Defined.

(** The theorem of C4 at frame 1 with detections object 5. *)
Lemma frame_data_delivered_once_witness :
  surface_attached rendering_world /\ renderer_returns rendering_world
  /\ exists w0 w1 w2 added1 added2,
       setFrameData (VNumber 1%float) (VObject float 5) rendering_world
         = (Normal tt, w0)
       /\ render w0 = (Normal tt, w1)
       /\ render w1 = (Normal tt, w2)
       /\ slot_empty w1 /\ slot_empty w2
       /\ trace (host w1) = trace (host rendering_world) ++ added1
       /\ trace (host w2) = trace (host w1) ++ added2
       /\ (forall fn, renderer (this rendering_world) = VFunction float fn ->
           exists r,
             renderer_calls added1 =
               [ERenderer fn (VObject float 5) r (VNumber 1%float)])
       /\ forallb (@delivers_nothing float) added2 = true
       /\ (forall bs, exists later,
             trace (host (snd (browser_steps bs w1))) = trace (host w1) ++ later
             /\ forallb (@delivers_nothing float) later = true).
Proof.
  split; [exact rendering_world_attached|].
  split; [exact rendering_world_renderer_returns|].
  exact (proj2 (proj2 (frame_data_delivered_once rendering_world))
           rendering_world_attached rendering_world_renderer_returns
           (VNumber 1%float) (VObject float 5)).
Defined.

Lemma pending_data_world_attached : surface_attached pending_data_world.
Proof. vm_compute. repeat split; discriminate. Defined.

Lemma pending_data_world_renderer_returns : renderer_returns pending_data_world.
Proof. vm_compute. split; [discriminate | reflexivity]. Defined.

(** The theorem of C10 at a player that holds frame 1 when it is resized. *)
Lemma resize_consumes_frame_data_witness :
  surface_attached pending_data_world /\ renderer_returns pending_data_world
  /\ exists w1 added,
       resize pending_data_world = (Normal tt, w1)
       /\ slot_empty w1
       /\ trace (host w1) = trace (host pending_data_world) ++ added
       /\ (forall fn, renderer (this pending_data_world) = VFunction float fn ->
           exists r,
             renderer_calls added =
               [ERenderer fn (frameData (this pending_data_world)) r
                  (activeFrameId (this pending_data_world))])
       /\ (is_function (renderer (this pending_data_world)) = false ->
           renderer_calls added = [])
       /\ (forall bs, exists later,
             trace (host (snd (browser_steps bs w1))) = trace (host w1) ++ later
             /\ forallb (@delivers_nothing float) later = true).
Proof.
  split; [exact pending_data_world_attached|].
  split; [exact pending_data_world_renderer_returns|].
  exact (resize_consumes_frame_data
           pending_data_world_attached pending_data_world_renderer_returns).
Defined.

(** The theorem of C5 at an overlay that has not been started. *)
Lemma start_stop_idempotent_witness :
  _running (this idle_world) = false /\ registrations idle_world = []
  /\ exists w1, _startLoop idle_world = (Normal tt, w1)
                /\ _startLoop w1 = (Normal tt, w1)
                /\ _running (this w1) = true
                /\ List.length (registrations w1) = 1%nat.
Proof.
  split; [reflexivity|]. split; [reflexivity|].
  apply (proj2 (proj2 (proj2 (start_stop_idempotent idle_world)))).
  - reflexivity.
  - reflexivity.
  - right. discriminate.
Defined.

(** The theorem of C6 at a loop driven by [requestAnimationFrame]. *)
Lemma stop_and_destroy_end_loop_witness :
  _rafId (this raf_world) = Some 0%nat
  /\ exists w1, _stopLoop raf_world = (Normal tt, w1)
                /\ ~ In 0%nat (rafPending (host w1))
                /\ In (ECancelAnimationFrame float 0) (trace (host w1)).
Proof.
  split; [reflexivity|].
  destruct (proj1 (stop_and_destroy_end_loop raf_world))
    as (w1 & E & _ & _ & Hraf & _).
  exists w1. split; [exact E|]. exact (Hraf 0%nat eq_refl).
Defined.

(** The theorems of C7 and C8 at a surface of 800 by 450 CSS pixels on a
    display of pixel ratio 2. *)
Lemma resize_pixel_size_witness :
  exists c' scale,
    canvas (this (snd (resize rendering_world))) = Some c'
    /\ ctx (this (snd (resize rendering_world))) =
       Some {| m_a := scale; m_b := num_of_Z 0; m_c := num_of_Z 0;
               m_d := scale; m_e := num_of_Z 0; m_f := num_of_Z 0 |}
    /\ canvas_width c' = math_round (num_mul 800%float scale)
    /\ canvas_height c' = math_round (num_mul 450%float scale)
    /\ scale = num_or 2%float (num_of_Z 1)
    /\ (to_boolean 2%float = true -> scale = 2%float)
    /\ wrapper (host (snd (resize rendering_world))) =
       Some {| dom_width := 800%float; dom_height := 450%float |}
    /\ devicePixelRatio (host (snd (resize rendering_world))) = 2%float.
Proof.
  exact (@resize_pixel_size float binary64 rendering_world
           {| canvas_width := 1600%float; canvas_height := 900%float;
              parentNode := true |}
           {| m_a := 2%float; m_b := 0%float; m_c := 0%float;
              m_d := 2%float; m_e := 0%float; m_f := 0%float |}
           {| dom_width := 800%float; dom_height := 450%float |}
           eq_refl eq_refl eq_refl).
Defined.

Lemma resize_idempotent_witness :
  canvas (this (snd (resize (snd (resize rendering_world))))) =
    canvas (this (snd (resize rendering_world)))
  /\ ctx (this (snd (resize (snd (resize rendering_world))))) =
    ctx (this (snd (resize rendering_world)))
  /\ fst (getVideoRect (snd (resize (snd (resize rendering_world))))) =
    fst (getVideoRect (snd (resize rendering_world))).
Proof.
  exact (@resize_idempotent float binary64 rendering_world
           {| canvas_width := 1600%float; canvas_height := 900%float;
              parentNode := true |}
           {| m_a := 2%float; m_b := 0%float; m_c := 0%float;
              m_d := 2%float; m_e := 0%float; m_f := 0%float |}
           {| dom_width := 800%float; dom_height := 450%float |}
           eq_refl eq_refl eq_refl).
Defined.

(** The theorem of C9 at a string offered as renderer. *)
Lemma setRenderer_validates_witness :
  exists w',
    setRenderer (VString float "draw") rendering_world = (Normal tt, w')
    /\ renderer (this w') = VFunction float 7
    /\ trace (host w') =
       trace (host rendering_world)
       ++ [EWarn float "Overlay renderer must be a function or null"].
Proof.
  destruct (setRenderer_validates rendering_world (VString float "draw"))
    as (w' & E & Hbad & _).
  exists w'. split; [exact E|].
  destruct (Hbad eq_refl ltac:(discriminate)) as (_ & Hr & Ht).
  split; [exact Hr | exact Ht].
Defined.

(** ** The examples of the specification, in binary64 *)

(** A 16:9 video in a 16:9 wrapper fills it. *)
Example getVideoRect_same_ratio :
  fst (getVideoRect rendering_world) =
    Normal {| rect_x := 0%float; rect_y := 0%float;
              rect_w := 800%float; rect_h := 450%float |}.
Proof. vm_compute. reflexivity. Qed.

(** A 16:9 video in a square wrapper is letterboxed. *)
Example getVideoRect_letterbox :
  fitVideoRect 800%float 800%float 1920%float 1080%float =
    {| rect_x := 0%float; rect_y := 175%float;
       rect_w := 800%float; rect_h := 450%float |}.
Proof. vm_compute. reflexivity. Qed.

(** A 4:3 video in a 16:9 wrapper is pillarboxed. *)
Example getVideoRect_pillarbox :
  fitVideoRect 800%float 450%float 640%float 480%float =
    {| rect_x := 100%float; rect_y := 0%float;
       rect_w := 600%float; rect_h := 450%float |}.
Proof. vm_compute. reflexivity. Qed.

(** [Math.round] rounds a tie upwards, also below zero. *)
Example float_round_ties :
  float_round 2.5%float = 3%float
  /\ float_round (-2.5)%float = (-2)%float
  /\ float_round 1200.75%float = 1201%float
  /\ float_round 0x1.fffffffffffffp-2%float = 0%float.
Proof. repeat split; vm_compute; reflexivity. Qed.

(** * Further properties of the plugin *)

(** ** The geometry of [getVideoRect], in exact arithmetic *)

Section ExactGeometryMore.

Local Open Scope Q_scope.





End ExactGeometryMore.




(** ** Guards and failures of the single methods *)

Section EdgeFacts.

Variable num : Type.
Context {N : JSNumber num}.
Local Open Scope js_scope.

Lemma renderer_calls_app (l1 l2 : list (Event num)) :
  renderer_calls (l1 ++ l2) = renderer_calls l1 ++ renderer_calls l2.
Proof. unfold renderer_calls. apply filter_app. Qed.

(** [getVideoRect] reads and never writes.  Without a wrapper it answers the
    empty rectangle, and does so before it looks at the media element; with
    a wrapper but no media element it throws; otherwise it answers. *)
Theorem getVideoRect_edges (w : World num) :
  snd (getVideoRect w) = w
  /\ (wrapper (host w) = None ->
      fst (getVideoRect w) =
        Normal {| rect_x := num_of_Z 0; rect_y := num_of_Z 0;
                  rect_w := num_of_Z 0; rect_h := num_of_Z 0 |})
  /\ (wrapper (host w) <> None -> media (host w) = None ->
      exists what, fst (getVideoRect w) = Throw (TypeError what))
  /\ (wrapper (host w) <> None -> media (host w) <> None ->
      exists r, fst (getVideoRect w) = Normal r).
Proof.
  unfold getVideoRect, bind, ask, ret, throw.
  destruct (wrapper (host w)) as [rect|], (media (host w)) as [video|];
    cbn [fst snd]; repeat split; intros;
    try reflexivity; try congruence; eauto.
Qed.

(** [resize] without a canvas or without a wrapper changes nothing.  With
    both but without a drawing context it gives the canvas its new size and
    then throws: nothing is drawn and the frame data stays. *)
Theorem resize_guards (w : World num) :
  (canvas (this w) = None \/ wrapper (host w) = None ->
   resize w = (Normal tt, w))
  /\ (forall c rect,
        canvas (this w) = Some c -> wrapper (host w) = Some rect ->
        ctx (this w) = None ->
        exists what w',
          resize w = (Throw (TypeError what), w')
          /\ this w' =
             set_canvas
               (Some {| canvas_width :=
                          math_round (dom_width rect
                                      * (devicePixelRatio (host w) ||| num_of_Z 1));
                        canvas_height :=
                          math_round (dom_height rect
                                      * (devicePixelRatio (host w) ||| num_of_Z 1));
                        parentNode := parentNode c |})
               (this w)
          /\ host w' = host w).
Proof.
  split.
  - intros [Hc | Hw]; open_world w; subst; unfold resize; run_monad;
      [reflexivity | destruct canvas0; reflexivity].
  - intros c rect Hc Hw Hx. open_world w. subst.
    unfold resize. run_monad. cbn.
    eexists; eexists. split; [reflexivity|]. split; reflexivity.
Qed.

(** [clear] always returns and empties the slot without calling the
    renderer; it touches neither the loop nor the surface, clears the canvas
    when the surface is attached, and what it discarded is not handed to the
    renderer by any later callback. *)
Theorem clear_discards_frame_data (w : World num) :
  exists w',
    clear w = (Normal tt, w')
    /\ slot_empty w'
    /\ this w' = set_activeFrameId VNull (set_frameData VNull (this w))
    /\ registrations w' = registrations w
    /\ renderer_calls (trace (host w')) = renderer_calls (trace (host w))
    /\ (forall rect, surface_attached w -> wrapper (host w) = Some rect ->
        trace (host w') =
          trace (host w)
          ++ [EClearRect (num_of_Z 0) (num_of_Z 0) (dom_width rect) (dom_height rect)])
    /\ (~ surface_attached w -> trace (host w') = trace (host w))
    /\ (forall bs, exists later,
          trace (host (snd (browser_steps bs w'))) = trace (host w') ++ later
          /\ forallb (@delivers_nothing num) later = true).
Proof.
  assert (H : exists w',
             clear w = (Normal tt, w')
             /\ slot_empty w'
             /\ this w' = set_activeFrameId VNull (set_frameData VNull (this w))
             /\ registrations w' = registrations w
             /\ renderer_calls (trace (host w')) = renderer_calls (trace (host w))
             /\ (forall rect, surface_attached w -> wrapper (host w) = Some rect ->
                 trace (host w') =
                   trace (host w)
                   ++ [EClearRect (num_of_Z 0) (num_of_Z 0)
                         (dom_width rect) (dom_height rect)])
             /\ (~ surface_attached w -> trace (host w') = trace (host w))).
  { unfold surface_attached, slot_empty, registrations.
    open_world w. unfold clear. run_monad.
    destruct ctx0 as [cx|], canvas0 as [cv|], wrapper0 as [rect|]; cbn;
      (eexists; split; [reflexivity|]); cbn;
      (split; [split; reflexivity|]); (split; [reflexivity|]);
      (split; [reflexivity|]);
      (split; [unfold renderer_calls; rewrite ?filter_app; cbn;
               rewrite ?app_nil_r; reflexivity|]);
      split; intros; try reflexivity; try congruence;
      try (exfalso; intuition congruence).
    match goal with H : Some _ = Some _ |- _ => inversion H; subst end.
    reflexivity. }
  destruct H as (w' & E & Hs & Ht & Hr & Hc & Ha & Hn).
  exists w'. repeat (split; [assumption|]).
  intro bs. destruct (browser_steps_empty_slot bs Hs) as (later & Hl & Hd & _).
  exists later. auto.
Qed.

(** What [destroy] leaves: the instance as the constructor made it, but for
    a video frame handle, which stays only when it could not be cancelled. *)
Lemma destroy_leaves (w : World num) :
  exists w1,
    destroy w = (Normal tt, w1)
    /\ this w1 = set_rvfcId (_rvfcId (this w1)) new_overlay
    /\ (_rvfcId (this w1) = None
        \/ media (host w1) = None
        \/ exists video, media (host w1) = Some video
             /\ has_cancelVideoFrameCallback video = false).
Proof.
  open_world w.
  unfold destroy, _stopLoop, _unbindListeners, cancelAnimationFrame,
    cancelVideoFrameCallback.
  run_monad.
  destruct _rafId0 as [hr|], _rvfcId0 as [hv|], media0 as [video|]; cbn;
    try destruct (has_cancelVideoFrameCallback video) eqn:Hcan; cbn;
    destruct canvas0 as [[cw0 ch0 [|]]|]; cbn;
    (eexists; split; [reflexivity|]); cbn;
    (split; [reflexivity|]); eauto.
Qed.

(** [destroy] on an instance that is already as [destroy] leaves it. *)
Lemma destroy_destroyed (w : World num) :
  this w = set_rvfcId (_rvfcId (this w)) new_overlay ->
  (_rvfcId (this w) = None
   \/ media (host w) = None
   \/ exists video, media (host w) = Some video
        /\ has_cancelVideoFrameCallback video = false) ->
  exists w',
    destroy w = (Normal tt, w')
    /\ this w' = this w
    /\ registrations w' = registrations w
    /\ trace (host w') =
       trace (host w)
       ++ [ERemoveEventListener num "window" "resize";
           ELog num "Overlay destroyed"].
Proof.
  unfold registrations. intros Hthis Hcan.
  open_world w. cbn in Hthis. inversion Hthis; subst; clear Hthis.
  unfold destroy, _stopLoop, _unbindListeners, cancelVideoFrameCallback.
  run_monad.
  destruct _rvfcId0 as [hv|], media0 as [video|]; cbn;
    try (destruct (has_cancelVideoFrameCallback video) eqn:Hc; cbn);
    try (exfalso;
         destruct Hcan as [Hn | [Hn | (v & Hv & Hf)]];
         [discriminate | discriminate | inversion Hv; subst; congruence]);
    (eexists; split; [reflexivity|]); cbn;
    rewrite <- ?app_assoc; auto.
Qed.

(** A second [destroy] finds nothing to undo: it cancels nothing, removes no
    canvas and leaves the instance as the first one left it, which is as the
    constructor made it but for a video frame handle that could not be
    cancelled. *)
Theorem destroy_twice (w : World num) :
  exists w1 w2,
    destroy w = (Normal tt, w1)
    /\ destroy w1 = (Normal tt, w2)
    /\ this w1 = set_rvfcId (_rvfcId (this w1)) new_overlay
    /\ this w2 = this w1
    /\ registrations w2 = registrations w1
    /\ trace (host w2) =
       trace (host w1)
       ++ [ERemoveEventListener num "window" "resize";
           ELog num "Overlay destroyed"].
Proof.
  destruct (destroy_leaves w) as (w1 & E1 & Hthis & Hcan).
  destruct (destroy_destroyed w1 Hthis Hcan) as (w2 & E2 & H2 & Hr & Ht).
  exists w1, w2. auto 10.
Qed.

End EdgeFacts.

(** [resize_guards] at an overlay that was never set up. *)
Lemma resize_guards_witness :
  canvas (this idle_world) = None
  /\ resize idle_world = (Normal tt, idle_world).
Proof.
  split; [reflexivity|].
  apply (proj1 (resize_guards idle_world)). left. reflexivity.
Defined.

(** [getVideoRect_edges] at a player that has lost its wrapper. *)
Lemma getVideoRect_edges_witness :
  wrapper (host stale_data_world) = None
  /\ fst (getVideoRect stale_data_world) =
     Normal {| rect_x := 0%float; rect_y := 0%float;
               rect_w := 0%float; rect_h := 0%float |}.
Proof.
  split; [reflexivity|].
  exact (proj1 (proj2 (getVideoRect_edges stale_data_world)) eq_refl).
Defined.

(** [clear_discards_frame_data] at a player that holds frame 1. *)
Lemma clear_discards_frame_data_witness :
  exists w',
    clear pending_data_world = (Normal tt, w')
    /\ slot_empty w'
    /\ renderer_calls (trace (host w')) =
       renderer_calls (trace (host pending_data_world)).
Proof.
  destruct (clear_discards_frame_data pending_data_world)
    as (w' & E & Hs & _ & _ & Hr & _).
  exists w'. auto.
Defined.

(** ** One tick of the loop *)

Section TickFacts.

Variable num : Type.
Context {N : JSNumber num}.
Local Open Scope js_scope.

Lemma pending_fires (h : nat) (l : list nat) :
  In h l -> existsb (Nat.eqb h) l = true.
Proof.
  intro Hin. apply existsb_exists. exists h. split; [exact Hin|].
  apply Nat.eqb_refl.
Qed.

(** A [render] whose renderer returns, with what it records. *)
Lemma render_returns (w : World num) :
  renderer_returns w ->
  exists w',
    render w = (Normal tt, w')
    /\ trace (host w') = trace (host w) ++ render_events w
    /\ (surface_attached w -> slot_empty w')
    /\ (~ surface_attached w -> w' = w).
Proof.
  unfold surface_attached, renderer_returns, slot_empty, render_events.
  open_world w. unfold render, getVideoRect, call_renderer. run_monad.
  destruct ctx0 as [cx|], canvas0 as [cv|]; cbn;
    try (intros _; eexists; split; [reflexivity|]; cbn;
         rewrite app_nil_r; intuition congruence).
  destruct wrapper0 as [rect|]; cbn;
    try (intros _; eexists; split; [reflexivity|]; cbn;
         rewrite app_nil_r; intuition congruence).
  destruct renderer0; cbn;
    try (intros _; eexists; split; [reflexivity|]; cbn;
         split; [reflexivity|]; split; [auto|];
         intro Hn; exfalso; apply Hn; repeat split; discriminate).
  intros [Hm Ht]. destruct media0 as [video|]; [|congruence]. cbn.
  rewrite Ht. cbn.
  eexists; split; [reflexivity|]. cbn. rewrite <- app_assoc.
  split; [reflexivity|]. split; [auto|].
  intro Hn; exfalso; apply Hn; repeat split; discriminate.
Qed.

(** One tick of the [requestAnimationFrame] loop: the registration that fires
    is used up, [render] runs once, and [loop] registers itself again and
    keeps the new handle. *)
Theorem animation_frame_tick (w : World num) (h : nat) :
  _running (this w) = true ->
  In h (rafPending (host w)) ->
  renderer_returns w ->
  exists w',
    fire_raf h w = (Normal tt, w')
    /\ trace (host w') =
       trace (host w) ++ render_events w
       ++ [ERequestAnimationFrame num (nextHandle (host w))]
    /\ rafPending (host w') =
       remove_handle h (rafPending (host w)) ++ [nextHandle (host w)]
    /\ rvfcPending (host w') = rvfcPending (host w)
    /\ _rafId (this w') = Some (nextHandle (host w))
    /\ _running (this w') = true
    /\ (surface_attached w -> slot_empty w').
Proof.
  intros Hrun Hin Hret.
  unfold fire_raf. rewrite (@pending_fires _ _ Hin).
  match goal with
  | |- context [rafCallback ?v0] => set (w0 := v0)
  end.
  assert (Hret0 : renderer_returns w0) by exact Hret.
  destruct (render_returns w0 Hret0) as (w1 & E & Ht & Hs & _).
  pose proof (render_preserves w0) as P. rewrite E in P. cbn [snd] in P.
  destruct P as (_ & _ & _ & Hr1 & _ & _ & _ & _ & _ & _ & _ & Hp1 & Hv1 & Hn1).
  unfold rafCallback, bind, get. fold (@render num N).
  change (_running (this w0)) with (_running (this w)). rewrite Hrun. cbn [negb].
  rewrite E. unfold requestAnimationFrame, assign. cbn.
  eexists; split; [reflexivity|]. cbn.
  rewrite Ht, Hp1, Hv1, Hn1, Hr1. subst w0. cbn.
  rewrite <- app_assoc.
  do 5 (split; [first [reflexivity | exact Hrun]|]). intro Ha. exact (Hs Ha).
Qed.

(** One tick of the [requestVideoFrameCallback] loop: as before, with the
    [overlayframe] event triggered first. *)
Theorem video_frame_tick (w : World num) (h : nat) :
  _running (this w) = true ->
  In h (rvfcPending (host w)) ->
  renderer_returns w ->
  exists w',
    fire_rvfc h w = (Normal tt, w')
    /\ trace (host w') =
       trace (host w) ++ [ETriggerEvent num "overlayframe"]
       ++ render_events w
       ++ [ERequestVideoFrameCallback num (nextHandle (host w))]
    /\ rvfcPending (host w') =
       remove_handle h (rvfcPending (host w)) ++ [nextHandle (host w)]
    /\ rafPending (host w') = rafPending (host w)
    /\ _rvfcId (this w') = Some (nextHandle (host w))
    /\ _running (this w') = true
    /\ (surface_attached w -> slot_empty w').
Proof.
  intros Hrun Hin Hret.
  unfold fire_rvfc. rewrite (@pending_fires _ _ Hin).
  unfold rvfcCallback, bind, get, emit. cbn [this host _running].
  rewrite Hrun. cbn [negb].
  match goal with
  | |- context [render ?v0] => set (w0 := v0)
  end.
  assert (Hret0 : renderer_returns w0) by exact Hret.
  destruct (render_returns w0 Hret0) as (w1 & E & Ht & Hs & _).
  pose proof (render_preserves w0) as P. rewrite E in P. cbn [snd] in P.
  destruct P as (_ & _ & _ & Hr1 & _ & _ & _ & _ & _ & _ & _ & Hp1 & Hv1 & Hn1).
  rewrite E. unfold requestVideoFrameCallback, assign. cbn.
  eexists; split; [reflexivity|]. cbn.
  rewrite Ht, Hp1, Hv1, Hn1, Hr1. subst w0. cbn.
  rewrite <- !app_assoc.
  do 5 (split; [first [reflexivity | exact Hrun]|]). intro Ha. exact (Hs Ha).
Qed.

End TickFacts.

(** ** A renderer that throws, and frame data that is overwritten or lost *)

Section DeliveryFacts.

Variable num : Type.
Context {N : JSNumber num}.
Local Open Scope js_scope.

(** A tick whose renderer throws passes the exception on: the registration
    that fired is used up and no new one is made, the frame data is not
    cleared, and [_running] stays set, so that a later [_startLoop] returns
    without registering anything.  The loop has ended without being
    stopped. *)
Theorem tick_with_throwing_renderer (w : World num) (h fn : nat)
    (video : Media num) :
  _running (this w) = true -> surface_attached w ->
  renderer (this w) = VFunction num fn -> media (host w) = Some video ->
  fn_throws (host w) fn = true ->
  (In h (rafPending (host w)) ->
   exists w',
     fire_raf h w = (Throw (CallbackError fn), w')
     /\ rafPending (host w') = remove_handle h (rafPending (host w))
     /\ rvfcPending (host w') = rvfcPending (host w)
     /\ frameData (this w') = frameData (this w)
     /\ activeFrameId (this w') = activeFrameId (this w)
     /\ _running (this w') = true
     /\ _startLoop w' = (Normal tt, w'))
  /\ (In h (rvfcPending (host w)) ->
      exists w',
        fire_rvfc h w = (Throw (CallbackError fn), w')
        /\ rvfcPending (host w') = remove_handle h (rvfcPending (host w))
        /\ rafPending (host w') = rafPending (host w)
        /\ frameData (this w') = frameData (this w)
        /\ activeFrameId (this w') = activeFrameId (this w)
        /\ _running (this w') = true
        /\ _startLoop w' = (Normal tt, w')).
Proof.
  unfold surface_attached. intros Hrun (Hc & Hx & Hw) Hr Hm Ht.
  open_world w. subst.
  destruct canvas0 as [cv|]; [|congruence].
  destruct ctx0 as [cx|]; [|congruence].
  destruct wrapper0 as [rect|]; [|congruence].
  split; intro Hin.
  - unfold fire_raf. cbn [host rafPending]. rewrite (@pending_fires _ _ Hin).
    unfold rafCallback, render, getVideoRect, call_renderer. run_monad. cbn.
    rewrite Ht. cbn.
    eexists; split; [reflexivity|]. cbn. auto 10.
  - unfold fire_rvfc. cbn [host rvfcPending]. rewrite (@pending_fires _ _ Hin).
    unfold rvfcCallback, render, getVideoRect, call_renderer. run_monad. cbn.
    rewrite Ht. cbn.
    eexists; split; [reflexivity|]. cbn. auto 10.
Qed.

(** The slot holds one payload: of two [setFrameData] calls before a tick,
    the renderer gets the frame id and data of the second and never sees
    those of the first. *)
Theorem last_frame_data_wins (w : World num) (fn : nat) (rect : DOMRect num)
    (id1 d1 id2 d2 : JSValue num) :
  surface_attached w -> wrapper (host w) = Some rect ->
  renderer (this w) = VFunction num fn -> renderer_returns w ->
  exists w1 w2 w3 r,
    setFrameData id1 d1 w = (Normal tt, w1)
    /\ setFrameData id2 d2 w1 = (Normal tt, w2)
    /\ render w2 = (Normal tt, w3)
    /\ trace (host w3) =
       trace (host w)
       ++ [EClearRect (num_of_Z 0) (num_of_Z 0) (dom_width rect) (dom_height rect);
           ERenderer fn d2 r id2]
    /\ slot_empty w3.
Proof.
  unfold surface_attached, renderer_returns, slot_empty.
  intros (Hc & Hx & _) Hw Hr Hret.
  open_world w. subst. cbn in Hret. destruct Hret as [Hm Ht].
  destruct canvas0 as [cv|]; [|congruence].
  destruct ctx0 as [cx|]; [|congruence].
  destruct media0 as [video|]; [|congruence].
  unfold setFrameData, render, getVideoRect, call_renderer. run_monad.
  do 4 eexists. do 2 (split; [reflexivity|]). cbn. rewrite Ht. cbn.
  split; [reflexivity|]. cbn.
  rewrite <- app_assoc. split; [reflexivity | split; reflexivity].
Qed.

(** Frame data stored while no renderer is registered is cleared by the next
    tick all the same: a renderer registered afterwards is called with
    [null] data and [null] frame id. *)
Theorem frame_data_without_renderer_is_lost (w : World num) (fn : nat)
    (rect : DOMRect num) (video : Media num) (frameId detections : JSValue num) :
  surface_attached w -> wrapper (host w) = Some rect ->
  media (host w) = Some video ->
  is_function (renderer (this w)) = false ->
  fn_throws (host w) fn = false ->
  exists w1 w2 w3 w4,
    setFrameData frameId detections w = (Normal tt, w1)
    /\ render w1 = (Normal tt, w2)
    /\ setRenderer (VFunction num fn) w2 = (Normal tt, w3)
    /\ render w3 = (Normal tt, w4)
    /\ trace (host w4) =
       trace (host w)
       ++ [EClearRect (num_of_Z 0) (num_of_Z 0) (dom_width rect) (dom_height rect);
           EClearRect (num_of_Z 0) (num_of_Z 0) (dom_width rect) (dom_height rect);
           ERenderer fn VNull
             (fitVideoRect (dom_width rect) (dom_height rect)
                (videoWidth video) (videoHeight video))
             VNull].
Proof.
  unfold surface_attached. intros (Hc & Hx & _) Hw Hm Hr Ht.
  open_world w. subst.
  destruct canvas0 as [cv|]; [|congruence].
  destruct ctx0 as [cx|]; [|congruence].
  unfold setFrameData, setRenderer, render, getVideoRect, call_renderer.
  run_monad.
  destruct renderer0; try discriminate Hr;
    do 4 eexists; do 3 (split; [reflexivity|]); cbn; rewrite Ht; cbn;
    (split; [reflexivity|]); cbn;
    rewrite <- !app_assoc; reflexivity.
Qed.

End DeliveryFacts.

(** ** Setting up and starting *)

Section SetupFacts.

Variable num : Type.
Context {N : JSNumber num}.
Local Open Scope js_scope.

(** [setup] refuses in three cases, tested in this order: the player is not
    a video player (a warning), the overlay is ready already (nothing), the
    player has no wrapper element (a warning).  In each the instance stays
    as it was: no canvas is made, no listener bound and no loop started. *)
Theorem setup_refuses (w : World num) :
  isVideo (host w) = false \/ ready (this w) = true \/ wrapper (host w) = None ->
  exists w',
    setup w = (Normal tt, w')
    /\ this w' = this w
    /\ registrations w' = registrations w
    /\ trace (host w') =
       trace (host w)
       ++ (if negb (isVideo (host w))
           then [EWarn num "Overlay is only supported for video"]
           else if ready (this w) then []
           else [EWarn num "Overlay setup failed: no video wrapper found"]).
Proof.
  unfold registrations. intro H. open_world w.
  unfold setup, supported. run_monad.
  destruct isVideo0; cbn.
  - destruct ready0; cbn.
    + eexists; split; [reflexivity|]. cbn. rewrite app_nil_r. auto.
    + destruct wrapper0 as [rect|]; cbn.
      * exfalso. destruct H as [H | [H | H]]; discriminate H.
      * eexists; split; [reflexivity|]. cbn. auto.
  - eexists; split; [reflexivity|]. cbn. auto.
Qed.

(** What [setup] does when nothing stops it. *)
Lemma setup_result (w : World num) (rect : DOMRect num) :
  isVideo (host w) = true -> ready (this w) = false ->
  wrapper (host w) = Some rect -> context2d_available (host w) = true ->
  _running (this w) = false -> renderer_returns w ->
  useVideoFrameCallback (host w) = false \/ media (host w) <> None ->
  let dpr := devicePixelRatio (host w) ||| num_of_Z 1 in
  let h := nextHandle (host w) in
  let precise :=
    match media (host w) with
    | Some video =>
        useVideoFrameCallback (host w) && has_requestVideoFrameCallback video
    | None => false
    end in
  exists w',
    setup w = (Normal tt, w')
    /\ this w' =
       (if precise then set_rvfcId (Some h) else set_rafId (Some h))
         (set_running true
            (set_ready true
               (set_enabled true
                  (set_activeFrameId VNull
                     (set_frameData VNull
                        (set_ctx
                           (Some {| m_a := dpr; m_b := num_of_Z 0;
                                    m_c := num_of_Z 0; m_d := dpr;
                                    m_e := num_of_Z 0; m_f := num_of_Z 0 |})
                           (set_canvas
                              (Some {| canvas_width :=
                                         math_round (dom_width rect * dpr);
                                       canvas_height :=
                                         math_round (dom_height rect * dpr);
                                       parentNode := true |})
                              (this w))))))))
    /\ rafPending (host w') =
       (if precise then rafPending (host w) else rafPending (host w) ++ [h])
    /\ rvfcPending (host w') =
       (if precise then rvfcPending (host w) ++ [h] else rvfcPending (host w))
    /\ same_player (host w) (host w').
Proof.
  unfold renderer_returns, same_player.
  intros Hv Hr Hw Hc Hrun Hret Hm. cbv zeta.
  open_world w. subst.
  unfold setup, supported, resize, render, getVideoRect, call_renderer,
    _bindListeners, _startLoop, _rvfcLoop, _rafLoop, requestAnimationFrame,
    requestVideoFrameCallback.
  run_monad. cbn.
  assert (Hstart :
            useVideoFrameCallback0 = true -> media0 = None -> False).
  { intros Hu Hn. destruct Hm as [Hm | Hm]; congruence. }
  destruct media0 as [video|], useVideoFrameCallback0;
    try (exfalso; apply Hstart; reflexivity);
    destruct renderer0; cbn in Hret; cbn;
    try (match type of Hret with
         | _ /\ _ =>
             destruct Hret as [Hmedia Ht];
             first [exfalso; apply Hmedia; reflexivity | rewrite Ht; cbn]
         end);
    try match goal with
        | |- context [has_requestVideoFrameCallback ?v] =>
            destruct (has_requestVideoFrameCallback v); cbn
        end;
    (eexists; split; [reflexivity|]); (split; [reflexivity|]);
    cbn; auto 12.
Qed.

(** [setup] on a video player with a wrapper and a 2D context, from an
    instance that is not ready: it returns with the overlay enabled and
    ready, the canvas in the DOM at the wrapper's size in device pixels, the
    slot empty, the loop running, and one new registration, made with
    [requestVideoFrameCallback] when the option is on and the media element
    provides it, and with [requestAnimationFrame] otherwise. *)
Theorem setup_attaches_and_starts (w : World num) (rect : DOMRect num) :
  isVideo (host w) = true -> ready (this w) = false ->
  wrapper (host w) = Some rect -> context2d_available (host w) = true ->
  _running (this w) = false -> renderer_returns w ->
  useVideoFrameCallback (host w) = false \/ media (host w) <> None ->
  exists w' c,
    setup w = (Normal tt, w')
    /\ ready (this w') = true /\ enabled (this w') = true
    /\ _running (this w') = true
    /\ surface_attached w' /\ slot_empty w'
    /\ canvas (this w') = Some c /\ parentNode c = true
    /\ canvas_width c =
       math_round (dom_width rect * (devicePixelRatio (host w) ||| num_of_Z 1))
    /\ canvas_height c =
       math_round (dom_height rect * (devicePixelRatio (host w) ||| num_of_Z 1))
    /\ ((rvfcPending (host w') = rvfcPending (host w) ++ [nextHandle (host w)]
         /\ rafPending (host w') = rafPending (host w)
         /\ _rvfcId (this w') = Some (nextHandle (host w))
         /\ exists video, media (host w) = Some video
              /\ useVideoFrameCallback (host w) = true
              /\ has_requestVideoFrameCallback video = true)
        \/ (rafPending (host w') = rafPending (host w) ++ [nextHandle (host w)]
            /\ rvfcPending (host w') = rvfcPending (host w)
            /\ _rafId (this w') = Some (nextHandle (host w))
            /\ (useVideoFrameCallback (host w) = false
                \/ exists video, media (host w) = Some video
                     /\ has_requestVideoFrameCallback video = false))).
Proof.
  intros Hv Hr Hw Hc Hrun Hret Hm.
  destruct (setup_result w Hv Hr Hw Hc Hrun Hret Hm)
    as (w' & E & Hthis & Hraf & Hrvfc & Hsame).
  destruct Hsame as (_ & Hw' & _).
  eexists; eexists. split; [exact E|].
  unfold surface_attached, slot_empty. rewrite Hthis, Hw', Hw, Hraf, Hrvfc.
  assert (Hprecise :
            forall b : bool,
              ready (this w) = false ->
              let o :=
                (if b then set_rvfcId (num:=num) (Some (nextHandle (host w)))
                 else set_rafId (num:=num) (Some (nextHandle (host w))))
                  (set_running true
                     (set_ready true
                        (set_enabled true
                           (set_activeFrameId VNull
                              (set_frameData VNull
                                 (set_ctx
                                    (Some {| m_a := devicePixelRatio (host w) ||| num_of_Z 1;
                                             m_b := num_of_Z 0; m_c := num_of_Z 0;
                                             m_d := devicePixelRatio (host w) ||| num_of_Z 1;
                                             m_e := num_of_Z 0; m_f := num_of_Z 0 |})
                                    (set_canvas
                                       (Some {| canvas_width :=
                                                  math_round (dom_width rect
                                                    * (devicePixelRatio (host w) ||| num_of_Z 1));
                                                canvas_height :=
                                                  math_round (dom_height rect
                                                    * (devicePixelRatio (host w) ||| num_of_Z 1));
                                                parentNode := true |})
                                       (this w)))))))) in
              ready o = true /\ enabled o = true /\ _running o = true
              /\ (canvas o <> None /\ ctx o <> None /\ Some rect <> None)
              /\ (frameData o = VNull /\ activeFrameId o = VNull)
              /\ canvas o =
                 Some {| canvas_width :=
                           math_round (dom_width rect
                             * (devicePixelRatio (host w) ||| num_of_Z 1));
                         canvas_height :=
                           math_round (dom_height rect
                             * (devicePixelRatio (host w) ||| num_of_Z 1));
                         parentNode := true |}).
  { intros [|] _; cbn; repeat split; try reflexivity; discriminate. }
  match goal with
  | |- context [if ?b then set_rvfcId _ else set_rafId _] =>
      destruct (Hprecise b Hr) as (H1 & H2 & H3 & H4 & H5 & H6)
  end.
  split; [exact H1|]. split; [exact H2|]. split; [exact H3|].
  split; [exact H4|]. split; [exact H5|]. split; [exact H6|].
  cbn [parentNode canvas_width canvas_height].
  do 3 (split; [reflexivity|]).
  destruct (media (host w)) as [video|] eqn:Em.
  - destruct (useVideoFrameCallback (host w)) eqn:Eu;
      [destruct (has_requestVideoFrameCallback video) eqn:Eh|]; cbn.
    + left. eauto 10.
    + right. eauto 10.
    + right. auto 10.
  - right. destruct Hm as [Hu | Hn]; [|congruence]. auto 10.
Qed.

(** Where the canvas cannot give a 2D context, [setup] throws from [resize]
    after it has put the canvas into the wrapper and sized it: the overlay is
    neither enabled nor ready, no listener is bound and no loop started, and
    a later [render] does nothing. *)
Theorem setup_without_context (w : World num) (rect : DOMRect num) :
  isVideo (host w) = true -> ready (this w) = false ->
  wrapper (host w) = Some rect -> context2d_available (host w) = false ->
  exists what w' c,
    setup w = (Throw (TypeError what), w')
    /\ canvas (this w') = Some c /\ parentNode c = true
    /\ canvas_width c =
       math_round (dom_width rect * (devicePixelRatio (host w) ||| num_of_Z 1))
    /\ ctx (this w') = None
    /\ ready (this w') = false /\ enabled (this w') = enabled (this w)
    /\ _running (this w') = _running (this w)
    /\ registrations w' = registrations w
    /\ trace (host w') = trace (host w) ++ [EAppendChild num]
    /\ render w' = (Normal tt, w').
Proof.
  unfold registrations. intros Hv Hr Hw Hc. open_world w. subst.
  unfold setup, supported, resize. run_monad. cbn.
  do 3 eexists. split; [reflexivity|]. cbn. auto 12.
Qed.

(** [_startLoop] from a stopped loop picks its strategy once: with the option
    on and a media element that provides [requestVideoFrameCallback] it
    registers there; with the option off, or a media element without that
    method, it registers with [requestAnimationFrame], and does not look at
    the media element at all when the option is off. *)
Theorem startLoop_strategy (w : World num) :
  _running (this w) = false ->
  (forall video,
     useVideoFrameCallback (host w) = true -> media (host w) = Some video ->
     has_requestVideoFrameCallback video = true ->
     exists w',
       _startLoop w = (Normal tt, w')
       /\ trace (host w') =
          trace (host w) ++ [ERequestVideoFrameCallback num (nextHandle (host w))]
       /\ rvfcPending (host w') = rvfcPending (host w) ++ [nextHandle (host w)]
       /\ rafPending (host w') = rafPending (host w)
       /\ _rvfcId (this w') = Some (nextHandle (host w))
       /\ _rafId (this w') = _rafId (this w)
       /\ _running (this w') = true)
  /\ (useVideoFrameCallback (host w) = false
      \/ (exists video, media (host w) = Some video
            /\ has_requestVideoFrameCallback video = false) ->
      exists w',
        _startLoop w = (Normal tt, w')
        /\ trace (host w') =
           trace (host w) ++ [ERequestAnimationFrame num (nextHandle (host w))]
        /\ rafPending (host w') = rafPending (host w) ++ [nextHandle (host w)]
        /\ rvfcPending (host w') = rvfcPending (host w)
        /\ _rafId (this w') = Some (nextHandle (host w))
        /\ _rvfcId (this w') = _rvfcId (this w)
        /\ _running (this w') = true).
Proof.
  intro Hrun. open_world w. subst.
  unfold _startLoop, _rvfcLoop, _rafLoop, requestAnimationFrame,
    requestVideoFrameCallback.
  run_monad. cbn.
  split.
  - intros video -> -> Hh. cbn. rewrite Hh. cbn.
    eexists; split; [reflexivity|]. cbn. auto 10.
  - intros [-> | (video & -> & Hh)]; cbn.
    + eexists; split; [reflexivity|]. cbn. auto 10.
    + destruct useVideoFrameCallback0; cbn; rewrite ?Hh; cbn;
        eexists; (split; [reflexivity|]); cbn; auto 10.
Qed.

(** With the option on and no media element [_startLoop] throws after it has
    set [_running]: nothing is registered, and a second [_startLoop] returns
    at its first line, so the loop does not start before [_stopLoop] has
    been called. *)
Theorem startLoop_failure_sticks (w : World num) :
  _running (this w) = false ->
  useVideoFrameCallback (host w) = true -> media (host w) = None ->
  exists what w',
    _startLoop w = (Throw (TypeError what), w')
    /\ _running (this w') = true
    /\ registrations w' = registrations w
    /\ trace (host w') = trace (host w)
    /\ _startLoop w' = (Normal tt, w').
Proof.
  unfold registrations. intros Hrun Hu Hm. open_world w. subst.
  unfold _startLoop. run_monad. cbn.
  do 2 eexists. split; [reflexivity|]. cbn. auto.
Qed.

End SetupFacts.

(** ** The loop over any sequence of calls *)

Section LoopInvariant.

Variable num : Type.
Context {N : JSNumber num}.
Local Open Scope js_scope.

Local Abbreviation Inv := (@loop_invariant num).

Lemma keeps_ret {A} (P : World num -> Prop) (a : A) : keeps P (ret a).
Proof. intros w Hw. exact Hw. Qed.

Lemma keeps_throw {A} (P : World num -> Prop) (e : Exception) :
  keeps P (throw (A := A) e).
Proof. intros w Hw. exact Hw. Qed.

Lemma keeps_get {A} (P : World num -> Prop) (f : Overlay num -> A) :
  keeps P (get f).
Proof. intros w Hw. exact Hw. Qed.

Lemma keeps_ask {A} (P : World num -> Prop) (f : Host num -> A) :
  keeps P (ask f).
Proof. intros w Hw. exact Hw. Qed.

Lemma keeps_bind {A B} (P : World num -> Prop) (m : M num A) (k : A -> M num B) :
  keeps P m -> (forall a, keeps P (k a)) -> keeps P (bind m k).
Proof.
  intros Hm Hk w Hw. unfold bind.
  specialize (Hm w Hw).
  destruct (m w) as [[a|e] w1]; cbn [snd] in *; [apply Hk|]; assumption.
Qed.

(** The invariant reads the loop fields, the pending registrations and the
    media element only. *)
Lemma invariant_reads (w w' : World num) :
  _running (this w') = _running (this w) ->
  _rafId (this w') = _rafId (this w) ->
  _rvfcId (this w') = _rvfcId (this w) ->
  rafPending (host w') = rafPending (host w) ->
  rvfcPending (host w') = rvfcPending (host w) ->
  media (host w') = media (host w) ->
  Inv w -> Inv w'.
Proof.
  unfold loop_invariant, one_loop, cancel_available.
  intros -> -> -> -> -> ->. auto.
Qed.

Lemma keeps_emit (e : Event num) : keeps Inv (emit e).
Proof. intros w. apply invariant_reads; reflexivity. Qed.

Lemma keeps_assign (upd : Overlay num -> Overlay num) :
  (forall o, _running (upd o) = _running o /\ _rafId (upd o) = _rafId o
             /\ _rvfcId (upd o) = _rvfcId o) ->
  keeps Inv (assign upd).
Proof.
  intros H w. destruct (H (this w)) as (H1 & H2 & H3).
  apply invariant_reads; cbn; auto.
Qed.

(** Break a method into its steps, each of which keeps the invariant. *)
Ltac keeps_steps :=
  repeat first
    [ apply keeps_ret | apply keeps_throw | apply keeps_get | apply keeps_ask
    | apply keeps_emit
    | apply keeps_assign; intro; cbn; auto; fail
    | assumption
    | apply keeps_bind; [|intro]
    | match goal with
      | |- keeps _ (match ?x with _ => _ end) => destruct x
      end ].

Lemma keeps_getVideoRect : keeps Inv getVideoRect.
Proof. unfold getVideoRect. keeps_steps. Qed.

Lemma keeps_render : keeps Inv render.
Proof. unfold render, call_renderer. pose proof keeps_getVideoRect. keeps_steps. Qed.

Lemma keeps_resize : keeps Inv resize.
Proof. unfold resize. pose proof keeps_render. keeps_steps. Qed.

Lemma keeps_setFrameData (frameId detections : JSValue num) :
  keeps Inv (setFrameData frameId detections).
Proof. unfold setFrameData. keeps_steps. Qed.

Lemma keeps_setRenderer (callback : JSValue num) :
  keeps Inv (setRenderer callback).
Proof. unfold setRenderer. keeps_steps. Qed.

Lemma keeps_clear : keeps Inv clear.
Proof. unfold clear. keeps_steps. Qed.

Lemma keeps_startLoop : keeps Inv _startLoop.
Proof.
  unfold keeps, loop_invariant, one_loop, cancel_available.
  intros w [Hone Hcan]. open_world w.
  unfold _startLoop, _rvfcLoop, _rafLoop, requestAnimationFrame,
    requestVideoFrameCallback.
  run_monad.
  destruct _running0; cbn; [auto|].
  destruct Hone as [[-> ->] | [Hrun _]]; [|discriminate Hrun].
  destruct useVideoFrameCallback0; cbn;
    [destruct media0 as [video|]; cbn;
     [destruct (has_requestVideoFrameCallback video) eqn:Eh; cbn|]|];
    (split; [|exact Hcan]).
  - right. split; [reflexivity|]. exists nextHandle0. right.
    do 3 (split; [reflexivity|]). exists video. auto.
  - right. split; [reflexivity|]. exists nextHandle0. left. auto.
  - left. auto.
  - right. split; [reflexivity|]. exists nextHandle0. left. auto.
Qed.

Lemma keeps_stopLoop : keeps Inv _stopLoop.
Proof.
  unfold keeps, loop_invariant, one_loop, cancel_available.
  intros w [Hone Hcan]. open_world w.
  unfold _stopLoop, cancelAnimationFrame, cancelVideoFrameCallback.
  run_monad.
  split; [|destruct _rafId0, _rvfcId0, media0 as [v|]; cbn;
           try destruct (has_cancelVideoFrameCallback v); exact Hcan].
  left.
  destruct Hone as [[-> ->] | (_ & h & [(-> & -> & ->) | (-> & -> & -> & v & -> & Hc)])].
  - destruct _rafId0, _rvfcId0, media0 as [v|]; cbn;
      try destruct (has_cancelVideoFrameCallback v); cbn; auto.
  - cbn. rewrite Nat.eqb_refl. cbn.
    destruct _rvfcId0, media0 as [v|]; cbn;
      try destruct (has_cancelVideoFrameCallback v); cbn; auto.
  - destruct _rafId0; cbn; rewrite Hc; cbn; rewrite Nat.eqb_refl; cbn; auto.
Qed.

Lemma keeps_destroy : keeps Inv destroy.
Proof.
  unfold destroy, _unbindListeners. pose proof keeps_stopLoop. keeps_steps.
Qed.

Lemma keeps_setup : keeps Inv setup.
Proof.
  unfold setup, supported, _bindListeners.
  pose proof keeps_resize. pose proof keeps_startLoop. keeps_steps.
Qed.

(** The closure [loop], run when the browser holds nothing more. *)
Lemma rafCallback_from_idle (w : World num) :
  rafPending (host w) = [] -> rvfcPending (host w) = [] ->
  cancel_available (host w) -> Inv (snd (rafCallback w)).
Proof.
  intros Hraf Hrvfc Hcan.
  assert (Hw : Inv w) by (split; [left; auto | exact Hcan]).
  unfold rafCallback, bind, get.
  destruct (_running (this w)) eqn:Hrun; cbn [negb]; [|exact Hw].
  assert (Hk : Inv (snd (render w))) by (apply keeps_render; exact Hw).
  pose proof (render_preserves w) as P. cbv zeta in P.
  destruct P as (_ & _ & _ & Hr1 & _ & _ & _ & Hm1 & _ & _ & _ & Hp1 & Hv1 & _).
  destruct (render w) as [[u|e] w1]; cbn [snd] in *; [|exact Hk].
  unfold requestAnimationFrame, assign. cbn.
  split; [|unfold cancel_available in *; cbn; rewrite Hm1; exact Hcan].
  right. cbn. split; [congruence|].
  exists (nextHandle (host w1)). left. rewrite Hp1, Hv1, Hraf, Hrvfc. auto.
Qed.

(** The closure [callback], likewise, on a media element that can cancel. *)
Lemma rvfcCallback_from_idle (w : World num) (video : Media num) :
  rafPending (host w) = [] -> rvfcPending (host w) = [] ->
  cancel_available (host w) ->
  media (host w) = Some video -> has_cancelVideoFrameCallback video = true ->
  Inv (snd (rvfcCallback w)).
Proof.
  intros Hraf Hrvfc Hcan Hm Hc.
  assert (Hw : Inv w) by (split; [left; auto | exact Hcan]).
  unfold rvfcCallback, bind, get.
  destruct (_running (this w)) eqn:Hrun; cbn [negb]; [|exact Hw].
  unfold emit.
  match goal with
  | |- context [render ?v0] => set (w0 := v0)
  end.
  assert (Hw0 : Inv w0) by (apply keeps_emit; exact Hw).
  assert (Hk : Inv (snd (render w0))) by (apply keeps_render; exact Hw0).
  pose proof (render_preserves w0) as P. cbv zeta in P.
  destruct P as (_ & _ & _ & Hr1 & _ & _ & _ & Hm1 & _ & _ & _ & Hp1 & Hv1 & _).
  destruct (render w0) as [[u|e] w1]; cbn [snd] in *; [|exact Hk].
  unfold requestVideoFrameCallback, assign. cbn.
  split; [|unfold cancel_available in *; cbn; rewrite Hm1; exact Hcan].
  right. cbn. split; [rewrite Hr1; exact Hrun|].
  exists (nextHandle (host w1)). right.
  rewrite Hp1, Hv1, Hm1. subst w0. cbn. rewrite Hraf, Hrvfc.
  split; [reflexivity|]. split; [reflexivity|]. split; [reflexivity|].
  exists video. auto.
Qed.

Lemma keeps_fire_raf (h : nat) : keeps Inv (fire_raf h).
Proof.
  intros w Hw. unfold fire_raf.
  destruct (existsb (Nat.eqb h) (rafPending (host w))) eqn:Ex; [|exact Hw].
  destruct Hw as [Hone Hcan].
  destruct Hone as [[Hr Hv] | (_ & h0 & [(Hr & Hv & _) | (Hv & Hr & _)])];
    try (rewrite Hr in Ex; discriminate Ex).
  rewrite Hr in Ex. cbn in Ex. rewrite orb_false_r in Ex.
  apply Nat.eqb_eq in Ex. subst h0.
  apply rafCallback_from_idle; cbn; try assumption.
  rewrite Hr. cbn. rewrite Nat.eqb_refl. reflexivity.
Qed.

Lemma keeps_fire_rvfc (h : nat) : keeps Inv (fire_rvfc h).
Proof.
  intros w Hw. unfold fire_rvfc.
  destruct (existsb (Nat.eqb h) (rvfcPending (host w))) eqn:Ex; [|exact Hw].
  destruct Hw as [Hone Hcan].
  destruct Hone
    as [[Hr Hv] | (_ & h0 & [(Hr & Hv & _) | (Hv & Hr & _ & video & Hm & Hc)])];
    try (rewrite Hv in Ex; discriminate Ex).
  rewrite Hv in Ex. cbn in Ex. rewrite orb_false_r in Ex.
  apply Nat.eqb_eq in Ex. subst h0.
  apply (@rvfcCallback_from_idle _ video); cbn; try assumption.
  rewrite Hv. cbn. rewrite Nat.eqb_refl. reflexivity.
Qed.

Lemma keeps_call (c : Call num) (w : World num) : Inv w -> Inv (run_call c w).
Proof.
  destruct c; cbn [run_call].
  - apply keeps_setup.
  - apply keeps_resize.
  - apply keeps_getVideoRect.
  - apply keeps_startLoop.
  - apply keeps_stopLoop.
  - apply keeps_setFrameData.
  - apply keeps_setRenderer.
  - apply keeps_render.
  - apply keeps_clear.
  - apply keeps_destroy.
  - apply keeps_fire_raf.
  - apply keeps_fire_rvfc.
Qed.

(** Whatever the page calls and whatever the browser fires, in any order and
    whether the calls return or throw, the browser never holds more than one
    registration of the plugin, it holds none while the loop is stopped, and
    the one it holds is the one whose handle the instance keeps. *)
Theorem never_two_loops (cs : list (Call num)) :
  forall w : World num,
    one_loop w -> cancel_available (host w) ->
    one_loop (run_calls cs w)
    /\ (List.length (registrations (run_calls cs w)) <= 1)%nat
    /\ (_running (this (run_calls cs w)) = false ->
        registrations (run_calls cs w) = []).
Proof.
  induction cs as [|c cs IH]; intros w Hone Hcan; cbn [run_calls].
  - split; [exact Hone|].
    unfold registrations.
    destruct Hone as [[-> ->] | (Hrun & h & [(-> & -> & _) | (-> & -> & _)])];
      cbn; split; auto; congruence.
  - destruct (keeps_call c (conj Hone Hcan)) as [Hone' Hcan'].
    apply IH; assumption.
Qed.

End LoopInvariant.

(** ** Stopping and starting again *)

Section RestartFacts.

Variable num : Type.
Context {N : JSNumber num}.
Local Open Scope js_scope.

(** On a media element that registers video frame callbacks but cannot
    cancel them, [_stopLoop] leaves the registration with the browser, and a
    [_startLoop] after it adds a second one while [_running] is set again:
    the old registration is live once more, next to the new one. *)
Theorem restart_without_cancel_doubles_loop (w : World num) (h : nat)
    (video : Media num) :
  _running (this w) = true ->
  rvfcPending (host w) = [h] -> _rvfcId (this w) = Some h ->
  useVideoFrameCallback (host w) = true -> media (host w) = Some video ->
  has_requestVideoFrameCallback video = true ->
  has_cancelVideoFrameCallback video = false ->
  exists w1 w2,
    _stopLoop w = (Normal tt, w1)
    /\ rvfcPending (host w1) = [h]
    /\ _startLoop w1 = (Normal tt, w2)
    /\ rvfcPending (host w2) = [h; nextHandle (host w)]
    /\ _rvfcId (this w2) = Some (nextHandle (host w))
    /\ _running (this w2) = true.
Proof.
  intros Hrun Hp Hid Hu Hm Hreq Hcan. open_world w. subst.
  unfold _stopLoop, _startLoop, _rvfcLoop, cancelAnimationFrame,
    requestVideoFrameCallback.
  run_monad.
  destruct _rafId0 as [hr|]; cbn; rewrite Hcan; cbn;
    do 2 eexists; (split; [reflexivity|]); (split; [reflexivity|]);
    cbn; rewrite Hreq; cbn; (split; [reflexivity|]); cbn; auto.
Qed.

(** [destroy] allocates no handle and leaves the player as it is. *)
Lemma destroy_host (w : World num) :
  nextHandle (host (snd (destroy w))) = nextHandle (host w)
  /\ same_player (host w) (host (snd (destroy w))).
Proof.
  unfold same_player. open_world w.
  unfold destroy, _stopLoop, _unbindListeners, cancelAnimationFrame,
    cancelVideoFrameCallback.
  run_monad.
  destruct _rafId0 as [hr|], _rvfcId0 as [hv|], media0 as [video|]; cbn;
    try destruct (has_cancelVideoFrameCallback video) eqn:Hcan; cbn;
    destruct canvas0 as [[cw0 ch0 [|]]|]; cbn; auto 12.
Qed.

(** [destroy] followed by [setup] gives a working overlay again, with one
    registration and no other; the renderer registered before is gone and
    has to be set again. *)
Theorem destroy_then_setup (w : World num) (rect : DOMRect num) :
  one_loop w -> cancel_available (host w) ->
  isVideo (host w) = true -> wrapper (host w) = Some rect ->
  context2d_available (host w) = true ->
  useVideoFrameCallback (host w) = false \/ media (host w) <> None ->
  exists w1 w2,
    destroy w = (Normal tt, w1)
    /\ setup w1 = (Normal tt, w2)
    /\ ready (this w2) = true /\ _running (this w2) = true
    /\ renderer (this w2) = VNull
    /\ slot_empty w2
    /\ registrations w2 = [nextHandle (host w)].
Proof.
  intros Hone Hcan Hv Hw Hc Hm.
  destruct (destroy_leaves w) as (w1 & E1 & Hthis & _).
  destruct (destroy_host w) as (Hn & Hsame). rewrite E1 in Hn, Hsame.
  cbn [snd] in Hn, Hsame.
  destruct Hsame as (Hv1 & Hw1 & Hm1 & _ & Hu1 & _ & Hc1 & _).
  assert (Hinv : loop_invariant w1).
  { pose proof (@keeps_destroy num w (conj Hone Hcan)) as K.
    rewrite E1 in K. exact K. }
  assert (Hreg : rafPending (host w1) = [] /\ rvfcPending (host w1) = []).
  { destruct Hinv as [[H | (Hrun & _)] _]; [exact H|].
    rewrite Hthis in Hrun. discriminate Hrun. }
  destruct Hreg as [Hraf Hrvfc].
  assert (Hret : renderer_returns w1).
  { unfold renderer_returns. rewrite Hthis. exact I. }
  assert (Hready : ready (this w1) = false) by (rewrite Hthis; reflexivity).
  assert (Hrun1 : _running (this w1) = false) by (rewrite Hthis; reflexivity).
  assert (Hv' : isVideo (host w1) = true) by congruence.
  assert (Hw' : wrapper (host w1) = Some rect) by congruence.
  assert (Hc' : context2d_available (host w1) = true) by congruence.
  assert (Hm' : useVideoFrameCallback (host w1) = false
                \/ media (host w1) <> None) by (rewrite Hu1, Hm1; exact Hm).
  destruct (setup_result w1 Hv' Hready Hw' Hc' Hrun1 Hret Hm')
    as (w2 & E2 & Hthis2 & Hraf2 & Hrvfc2 & _).
  exists w1, w2. split; [exact E1|]. split; [exact E2|].
  unfold slot_empty, registrations.
  rewrite Hthis2, Hraf2, Hrvfc2, Hraf, Hrvfc, Hn.
  destruct (match media (host w1) with
            | Some video =>
                useVideoFrameCallback (host w1)
                && has_requestVideoFrameCallback video
            | None => false
            end); cbn; rewrite Hthis; cbn; auto 10.
Qed.

End RestartFacts.

(** ** The further properties at concrete players *)

Lemma raf_rendering_world_renderer_returns : renderer_returns raf_rendering_world.
Proof. vm_compute. split; [discriminate | reflexivity]. Defined.

Lemma throwing_world_attached : surface_attached throwing_world.
Proof. vm_compute. repeat split; discriminate. Defined.

Lemma raf_world_attached : surface_attached raf_world.
Proof. vm_compute. repeat split; discriminate. Defined.

Lemma animation_frame_tick_witness :
  _running (this raf_rendering_world) = true
  /\ In 0%nat (rafPending (host raf_rendering_world))
  /\ exists w',
       fire_raf 0 raf_rendering_world = (Normal tt, w')
       /\ rafPending (host w') = [1%nat]
       /\ _rafId (this w') = Some 1%nat.
Proof.
  assert (Hin : In 0%nat (rafPending (host raf_rendering_world)))
    by (vm_compute; left; reflexivity).
  split; [reflexivity|]. split; [exact Hin|].
  destruct (@animation_frame_tick float binary64 raf_rendering_world 0
              eq_refl Hin raf_rendering_world_renderer_returns)
    as (w' & E & _ & Hp & _ & Hid & _).
  exists w'. split; [exact E|]. split; [exact Hp | exact Hid].
Defined.

Lemma video_frame_tick_witness :
  _running (this rendering_world) = true
  /\ In 0%nat (rvfcPending (host rendering_world))
  /\ exists w',
       fire_rvfc 0 rendering_world = (Normal tt, w')
       /\ rvfcPending (host w') = [1%nat]
       /\ _rvfcId (this w') = Some 1%nat.
Proof.
  assert (Hin : In 0%nat (rvfcPending (host rendering_world)))
    by (vm_compute; left; reflexivity).
  split; [reflexivity|]. split; [exact Hin|].
  destruct (@video_frame_tick float binary64 rendering_world 0
              eq_refl Hin rendering_world_renderer_returns)
    as (w' & E & _ & Hp & _ & Hid & _).
  exists w'. split; [exact E|]. split; [exact Hp | exact Hid].
Defined.

Lemma tick_with_throwing_renderer_witness :
  fn_throws (host throwing_world) 7 = true
  /\ exists w',
       fire_rvfc 0 throwing_world = (Throw (CallbackError 7), w')
       /\ rvfcPending (host w') = []
       /\ _running (this w') = true
       /\ _startLoop w' = (Normal tt, w').
Proof.
  assert (Hin : In 0%nat (rvfcPending (host throwing_world)))
    by (vm_compute; left; reflexivity).
  split; [reflexivity|].
  destruct (proj2 (@tick_with_throwing_renderer float binary64 throwing_world
                     0 7
                     {| videoWidth := 1920%float; videoHeight := 1080%float;
                        has_requestVideoFrameCallback := true;
                        has_cancelVideoFrameCallback := true |}
                     eq_refl throwing_world_attached eq_refl eq_refl eq_refl)
              Hin)
    as (w' & E & Hp & _ & _ & _ & Hrun & Hstart).
  exists w'. split; [exact E|]. split; [exact Hp|]. split; [exact Hrun | exact Hstart].
Defined.

Lemma last_frame_data_wins_witness :
  exists w1 w2 w3 r,
    setFrameData (VNumber 1%float) (VObject float 5) rendering_world = (Normal tt, w1)
    /\ setFrameData (VNumber 2%float) (VObject float 6) w1 = (Normal tt, w2)
    /\ render w2 = (Normal tt, w3)
    /\ trace (host w3) =
       trace (host rendering_world)
       ++ [EClearRect (num_of_Z 0) (num_of_Z 0) 800%float 450%float;
           ERenderer 7 (VObject float 6) r (VNumber 2%float)]
    /\ slot_empty w3.
Proof.
  exact (@last_frame_data_wins float binary64 rendering_world 7
           {| dom_width := 800%float; dom_height := 450%float |}
           (VNumber 1%float) (VObject float 5) (VNumber 2%float) (VObject float 6)
           rendering_world_attached eq_refl eq_refl
           rendering_world_renderer_returns).
Defined.

Lemma frame_data_without_renderer_is_lost_witness :
  is_function (renderer (this raf_world)) = false
  /\ exists w1 w2 w3 w4,
       setFrameData (VNumber 1%float) (VObject float 5) raf_world = (Normal tt, w1)
       /\ render w1 = (Normal tt, w2)
       /\ setRenderer (VFunction float 7) w2 = (Normal tt, w3)
       /\ render w3 = (Normal tt, w4)
       /\ renderer_calls (trace (host w4)) =
          [ERenderer 7 VNull
             {| rect_x := 0%float; rect_y := 0%float;
                rect_w := 800%float; rect_h := 450%float |} VNull].
Proof.
  split; [reflexivity|].
  destruct (@frame_data_without_renderer_is_lost float binary64 raf_world 7
              {| dom_width := 800%float; dom_height := 450%float |}
              {| videoWidth := 1920%float; videoHeight := 1080%float;
                 has_requestVideoFrameCallback := false;
                 has_cancelVideoFrameCallback := false |}
              (VNumber 1%float) (VObject float 5)
              raf_world_attached eq_refl eq_refl eq_refl eq_refl)
    as (w1 & w2 & w3 & w4 & E1 & E2 & E3 & E4 & Ht).
  exists w1, w2, w3, w4. do 4 (split; [assumption|]).
  rewrite Ht. vm_compute. reflexivity.
Defined.

Lemma setup_refuses_witness :
  ready (this rendering_world) = true
  /\ exists w',
       setup rendering_world = (Normal tt, w')
       /\ this w' = this rendering_world
       /\ trace (host w') = trace (host rendering_world) ++ [].
Proof.
  split; [reflexivity|].
  destruct (@setup_refuses float binary64 rendering_world
              (or_intror (or_introl eq_refl)))
    as (w' & E & Hthis & _ & Ht).
  exists w'. split; [exact E|]. split; [exact Hthis | exact Ht].
Defined.

Lemma idle_world_has_media : media (host idle_world) <> None.
Proof. vm_compute. discriminate. Defined.

Lemma idle_world_renderer_returns : renderer_returns idle_world.
Proof. vm_compute. exact I. Defined.

Lemma rendering_world_has_media : media (host rendering_world) <> None.
Proof. vm_compute. discriminate. Defined.

Lemma setup_attaches_and_starts_witness :
  exists w' c,
    setup idle_world = (Normal tt, w')
    /\ ready (this w') = true /\ _running (this w') = true
    /\ canvas (this w') = Some c
    /\ canvas_width c = math_round (num_mul 800%float (num_or 2%float (num_of_Z 1)))
    /\ registrations w' = [0%nat].
Proof.
  destruct (@setup_attaches_and_starts float binary64 idle_world
              {| dom_width := 800%float; dom_height := 450%float |}
              eq_refl eq_refl eq_refl eq_refl eq_refl
              idle_world_renderer_returns (or_intror idle_world_has_media))
    as (w' & c & E & Hr & _ & Hrun & _ & _ & Hc & _ & Hw & _ & Hreg).
  exists w', c. split; [exact E|]. split; [exact Hr|]. split; [exact Hrun|].
  split; [exact Hc|]. split; [exact Hw|].
  unfold registrations.
  destruct Hreg as [(Hv & Hf & _) | (Hf & Hv & _)]; rewrite Hv, Hf; reflexivity.
Defined.

Lemma setup_without_context_witness :
  context2d_available (host no_context_world) = false
  /\ exists what w' c,
       setup no_context_world = (Throw (TypeError what), w')
       /\ canvas (this w') = Some c /\ parentNode c = true
       /\ ready (this w') = false
       /\ registrations w' = registrations no_context_world.
Proof.
  split; [reflexivity|].
  destruct (@setup_without_context float binary64 no_context_world
              {| dom_width := 800%float; dom_height := 450%float |}
              eq_refl eq_refl eq_refl eq_refl)
    as (what & w' & c & E & Hc & Hp & _ & _ & Hr & _ & _ & Hreg & _).
  exists what, w', c. auto.
Defined.

Lemma startLoop_strategy_witness :
  _running (this idle_world) = false
  /\ exists w',
       _startLoop idle_world = (Normal tt, w')
       /\ rvfcPending (host w') = [0%nat]
       /\ rafPending (host w') = [].
Proof.
  split; [reflexivity|].
  destruct (proj1 (@startLoop_strategy float idle_world eq_refl)
              {| videoWidth := 1920%float; videoHeight := 1080%float;
                 has_requestVideoFrameCallback := true;
                 has_cancelVideoFrameCallback := true |}
              eq_refl eq_refl eq_refl)
    as (w' & E & _ & Hv & Hf & _).
  exists w'. auto.
Defined.

Lemma startLoop_failure_sticks_witness :
  media (host no_media_world) = None
  /\ exists what w',
       _startLoop no_media_world = (Throw (TypeError what), w')
       /\ _running (this w') = true
       /\ registrations w' = []
       /\ _startLoop w' = (Normal tt, w').
Proof.
  split; [reflexivity|].
  destruct (@startLoop_failure_sticks float no_media_world
              eq_refl eq_refl eq_refl)
    as (what & w' & E & Hrun & Hreg & _ & Hs).
  exists what, w'. auto.
Defined.

Lemma idle_world_one_loop : one_loop idle_world.
Proof. left. split; reflexivity. Defined.

Lemma cancel_available_test {num : Type} (p : Host num) :
  match media p with
  | Some video => has_cancelVideoFrameCallback video
  | None => true
  end = true ->
  cancel_available p.
Proof.
  intros Ht video Hm _. rewrite Hm in Ht. exact Ht.
Qed.

Lemma idle_world_cancel_available : cancel_available (host idle_world).
Proof. apply cancel_available_test. vm_compute. reflexivity. Defined.

Lemma rendering_world_one_loop : one_loop rendering_world.
Proof.
  right. split; [reflexivity|]. exists 0%nat. right.
  do 3 (split; [vm_compute; reflexivity|]).
  exists {| videoWidth := 1920%float; videoHeight := 1080%float;
            has_requestVideoFrameCallback := true;
            has_cancelVideoFrameCallback := true |}.
  split; vm_compute; reflexivity.
Defined.

Lemma rendering_world_can_cancel :
  match media (host rendering_world) with
  | Some video => has_cancelVideoFrameCallback video
  | None => true
  end = true.
Proof. vm_compute. reflexivity. Defined.

Lemma never_two_loops_witness :
  one_loop (run_calls session idle_world)
  /\ (List.length (registrations (run_calls session idle_world)) <= 1)%nat.
Proof.
  destruct (@never_two_loops float binary64 session idle_world
              idle_world_one_loop idle_world_cancel_available)
    as (H1 & H2 & _).
  split; [exact H1 | exact H2].
Defined.

Lemma restart_without_cancel_doubles_loop_witness :
  has_cancelVideoFrameCallback
    {| videoWidth := 1920%float; videoHeight := 1080%float;
       has_requestVideoFrameCallback := true;
       has_cancelVideoFrameCallback := false |} = false
  /\ exists w1 w2,
       _stopLoop no_cancel_world = (Normal tt, w1)
       /\ _startLoop w1 = (Normal tt, w2)
       /\ rvfcPending (host w2) = [0%nat; 1%nat]
       /\ _running (this w2) = true.
Proof.
  split; [reflexivity|].
  destruct (@restart_without_cancel_doubles_loop float no_cancel_world 0
              {| videoWidth := 1920%float; videoHeight := 1080%float;
                 has_requestVideoFrameCallback := true;
                 has_cancelVideoFrameCallback := false |}
              eq_refl eq_refl eq_refl eq_refl eq_refl eq_refl eq_refl)
    as (w1 & w2 & E1 & _ & E2 & Hp & _ & Hrun).
  exists w1, w2. auto.
Defined.

Lemma destroy_then_setup_witness :
  exists w1 w2,
    destroy rendering_world = (Normal tt, w1)
    /\ setup w1 = (Normal tt, w2)
    /\ ready (this w2) = true /\ _running (this w2) = true
    /\ renderer (this w2) = VNull
    /\ slot_empty w2
    /\ registrations w2 = [1%nat].
Proof.
  exact (@destroy_then_setup float binary64 rendering_world
           {| dom_width := 800%float; dom_height := 450%float |}
           rendering_world_one_loop
           (@cancel_available_test float (host rendering_world)
              rendering_world_can_cancel)
           eq_refl eq_refl eq_refl (or_intror rendering_world_has_media)).
Defined.
